(** * Erika: front-matter labels in the file explorer

    A shallow embedding of [src/main.ts] (the [ErikaPlugin] class) and the
    properties of its label computation ([calcDisplayText]) and of its display
    synchronisation ([updateFileDisplay], [updateFileExplorer],
    [saveAndUpdateDisplay], [init], [getFileExplorerLeaf]).

    The program is TypeScript that runs as JavaScript: front-matter values are
    untyped ([any]), so the embedding carries the JavaScript values a YAML
    front matter can hold together with the coercions the code applies to them
    ([||], [?:], [.length > 0], [Array.prototype.join]). *)

From Stdlib Require Import Ascii.
From stdpp Require Import base option list strings pretty gmap.

Local Open Scope string_scope.
Local Open Scope list_scope.

#[local] Set Warnings "-register-all".

(** ** Exceptions and fallible computations *)

(** What a JavaScript [throw] carries, as far as this program can tell:
    a [TypeError] raised by the language itself, or an [Error] built with a
    message ([getFileExplorerLeaf] rejects with one). *)
Inductive exn : Type :=
| TypeError
| Error (msg : string).

Inductive result (A : Type) : Type :=
| OK (a : A)
| Throw (e : exn).
Arguments OK {A} a.
Arguments Throw {A} e.

#[global] Instance result_ret : MRet result := fun A a => OK a.
#[global] Instance result_bind : MBind result := fun A B f r =>
  match r with
  | OK a => f a
  | Throw e => Throw e
  end.

(** Keeps the elements on which the test answers [true]; the first test that
    throws aborts the whole filter, as in [Array.prototype.filter]. *)
Fixpoint filterM {A : Type} (f : A -> result bool) (l : list A) : result (list A) :=
  match l with
  | [] => OK []
  | x :: r =>
      b ← f x;
      k ← filterM f r;
      OK (if b : bool then x :: k else k)
  end.

(** ** JavaScript numbers

    Numbers are IEEE doubles.  The program never computes with them; it only
    tests their truthiness, compares a [length] with [0], and lets [join]
    print them.  The development is parametric in these four operations. *)
Class NumberOps : Type := {
  number : Type;
  (** [ToBoolean]: [false] on [+0], [-0] and [NaN] *)
  num_to_boolean : number -> bool;
  (** [Number::toString] *)
  num_to_string : number -> string;
  (** [n > 0] *)
  num_gt0 : number -> bool;
  (** [StringToNumber]: [NaN] on a string that is no numeric literal *)
  string_to_number : string -> number;
}.

Section Values.
Context {Num : NumberOps}.

(** ** JavaScript values

    What [frontmatter[key]] can evaluate to: the values of a parsed YAML
    document, [undefined] for a property that is not there, and the built-in
    functions that every object inherits from [Object.prototype]. *)
Inductive value : Type :=
| VUndefined
| VNull
| VBool (b : bool)
| VNum (n : number)
| VStr (s : string)
| VArr (elems : list value)
| VObj (props : list (string * value))
| VFun (name : string) (arity : nat).

(** An object's own properties, in property order; a read takes the first
    binding of the key. *)
Definition object : Type := list (string * value).

Fixpoint get_own (key : string) (o : object) : option value :=
  match o with
  | [] => None
  | (k, v) :: r => if String.eqb k key then Some v else get_own key r
  end.

Definition has_own (key : string) (o : object) : bool :=
  match get_own key o with Some _ => true | None => false end.

(** The members of [Object.prototype] (with those of Annex B), which a read
    of a key that is not an own property reaches.  [__proto__] answers
    [Object.prototype] itself: an object without a [length] and with the
    default string form, which is all this program observes of it, so the
    empty object stands for it. *)
Definition object_prototype (key : string) : option value :=
  if String.eqb key "constructor" then Some (VFun "Object" 1)
  else if String.eqb key "hasOwnProperty" then Some (VFun "hasOwnProperty" 1)
  else if String.eqb key "isPrototypeOf" then Some (VFun "isPrototypeOf" 1)
  else if String.eqb key "propertyIsEnumerable" then Some (VFun "propertyIsEnumerable" 1)
  else if String.eqb key "toLocaleString" then Some (VFun "toLocaleString" 0)
  else if String.eqb key "toString" then Some (VFun "toString" 0)
  else if String.eqb key "valueOf" then Some (VFun "valueOf" 0)
  else if String.eqb key "__defineGetter__" then Some (VFun "__defineGetter__" 2)
  else if String.eqb key "__defineSetter__" then Some (VFun "__defineSetter__" 2)
  else if String.eqb key "__lookupGetter__" then Some (VFun "__lookupGetter__" 1)
  else if String.eqb key "__lookupSetter__" then Some (VFun "__lookupSetter__" 1)
  else if String.eqb key "__proto__" then Some (VObj [])
  else None.

(** [o[key]] on a plain object: own property, else inherited, else
    [undefined]. *)
Definition get (o : object) (key : string) : value :=
  match get_own key o with
  | Some v => v
  | None =>
      match object_prototype key with
      | Some v => v
      | None => VUndefined
      end
  end.

(** [ToBoolean] *)
Definition to_boolean (v : value) : bool :=
  match v with
  | VUndefined | VNull => false
  | VBool b => b
  | VNum n => num_to_boolean n
  | VStr s => negb (String.eqb s "")
  | VArr _ | VObj _ | VFun _ _ => true
  end.

(** [Function.prototype.toString] of a built-in. *)
Definition native_source (name : string) : string :=
  "function " +:+ name +:+ "() { [native code] }".

(** [ToString].  An array prints as its elements joined with a comma,
    [undefined] and [null] elements printing as nothing.  A plain object
    prints through [Object.prototype.toString] unless it has an own
    [toString] property: front-matter data is never callable, so
    [OrdinaryToPrimitive] skips it, gets the object itself back from
    [valueOf] (or skips a data [valueOf] too) and throws a [TypeError]. *)
Fixpoint to_string (v : value) : result string :=
  match v with
  | VUndefined => OK "undefined"
  | VNull => OK "null"
  | VBool b => OK (if b then "true" else "false")
  | VNum n => OK (num_to_string n)
  | VStr s => OK s
  | VArr elems =>
      strs ← mapM (fun e =>
                     match e with
                     | VUndefined | VNull => OK ""
                     | _ => to_string e
                     end) elems;
      OK (String.concat "," strs)
  | VObj props =>
      if has_own "toString" props then Throw TypeError
      else OK "[object Object]"
  | VFun name _ => OK (native_source name)
  end.

(** The string an element contributes to [Array.prototype.join]. *)
Definition element_to_string (e : value) : result string :=
  match e with
  | VUndefined | VNull => OK ""
  | _ => to_string e
  end.

(** [Array.prototype.join] *)
Definition Array_join (sep : string) (l : list value) : result string :=
  strs ← mapM element_to_string l;
  OK (String.concat sep strs).

(** [v > 0]: [ToPrimitive] with hint number, then [ToNumber], then the
    comparison, which is [false] when the number is [NaN].  On an object
    [valueOf] gives no primitive, so the string form decides. *)
Definition gt0 (v : value) : result bool :=
  match v with
  | VUndefined => OK false
  | VNull => OK false
  | VBool b => OK b
  | VNum n => OK (num_gt0 n)
  | VStr s => OK (num_gt0 (string_to_number s))
  | VArr _ | VObj _ | VFun _ _ =>
      s ← to_string v;
      OK (num_gt0 (string_to_number s))
  end.

(** The filter's test [i.length > 0].  A string has its number of code units
    and an array its number of elements, a built-in function its arity; a
    boolean or a number has no [length], and [undefined > 0] is [false]; a
    plain object answers with its own [length] property, whatever that holds.
    Reading a property of [undefined] or [null] throws. *)
Definition length_gt0 (v : value) : result bool :=
  match v with
  | VUndefined | VNull => Throw TypeError
  | VBool _ | VNum _ => OK false
  | VStr s => OK (Nat.ltb 0 (String.length s))
  | VArr elems => OK (Nat.ltb 0 (length elems))
  | VObj props => gt0 (get props "length")
  | VFun _ arity => OK (Nat.ltb 0 arity)
  end.

End Values.

(** ** Settings *)

(** [enum FrontmatterType { Raw = 'raw', Date = 'date' }]: a string enum, so at
    run time a [type] is a string, and one read back from the saved settings
    may be neither of the two. *)
Definition FrontmatterType : Type := string.
Definition Raw : FrontmatterType := "raw".
Definition Date : FrontmatterType := "date".

Record ListItem : Type := {
  key : string;
  type : FrontmatterType;
  format : option string;
}.

Record PluginSettings : Type := {
  settings_list : list ListItem;
  separator : string;
}.

Definition DEFAULT_SETTINGS : PluginSettings :=
  {| settings_list := [ {| key := ""; type := Raw; format := None |} ];
     separator := "|" |}.

(** ** The label compiler *)

Section Compiler.
Context {Num : NumberOps}.

(** [moment(v).format(format)], the host's date library, as it answers at one
    reading of the clock.  It is foreign code that may throw like any other
    call, and its answer is not fixed by the value alone: [moment] of a value
    that carries no date ([[]], [{}], an object with some of the date's parts)
    fills in the current time.  The clock is taken to stand still within one
    operation of the plugin; two operations may meet two instances, see
    [Clock]. *)
Class Moment : Type :=
  moment_format : value -> option string -> result string.

Context {Mom : Moment}.

Definition FrontMatterCache : Type := object.

(** The callback of [this.settings.list.map], one extractor at a time. *)
Definition extract (frontmatter : FrontMatterCache) (item : ListItem) : result value :=
  if String.eqb (type item) Raw then
    let v := get frontmatter (key item) in
    OK (if to_boolean v then v else VStr "")
  else if String.eqb (type item) Date then
    let v := get frontmatter (key item) in
    if to_boolean v then
      s ← moment_format v (format item);
      OK (VStr s)
    else OK (VStr "")
  else OK (VStr "").

Definition calcDisplayText (settings : PluginSettings)
    (frontmatter : option FrontMatterCache) : result string :=
  match frontmatter with
  | None => OK ""
  | Some fm =>
      outs ← mapM (extract fm) (settings_list settings);
      kept ← filterM length_gt0 outs;
      Array_join (" " +:+ separator settings +:+ " ") kept
  end.

(** The label compiler as the specification words it (section 4.1): every
    extractor yields a string, the value in its string form for [Raw], and the
    empty strings are discarded before the join. *)
Definition spec_output (fm : FrontMatterCache) (item : ListItem) : result string :=
  if String.eqb (type item) Raw then
    match get_own (key item) fm with
    | None => OK ""
    | Some v => if to_boolean v then to_string v else OK ""
    end
  else if String.eqb (type item) Date then
    match get_own (key item) fm with
    | None => OK ""
    | Some v => moment_format v (format item)
    end
  else OK "".

Definition spec_compile (settings : PluginSettings)
    (frontmatter : option FrontMatterCache) : result string :=
  match frontmatter with
  | None => OK ""
  | Some fm =>
      outs ← mapM (spec_output fm) (settings_list settings);
      OK (String.concat (" " +:+ separator settings +:+ " ")
            (filter (fun s => s ≠ "") outs))
  end.

End Compiler.

(** The date library along time: [moment_at t] is how [moment] answers while
    the clock reads [t]. *)
Class Clock {Num : NumberOps} : Type := {
  instant : Type;
  moment_at : instant -> Moment;
}.

(** ** The host: files, the file explorer view, the metadata cache *)

Record TFile : Type := { path : string }.

(** [TAbstractFile]: what a file item holds is a [TFile] or a folder. *)
Inductive TAbstractFile : Type :=
| AFile (f : TFile)
| AFolder (folder_path : string).

(** A DOM element, by identity. *)
Definition HTMLElement : Type := nat.

Record FileItem : Type := {
  file : TAbstractFile;
  selfEl : HTMLElement;
}.

(** [fileItems]: an object from paths to file items; the list gives its own
    properties in the order [for ... in] visits them. *)
Definition FileItems : Type := list (string * FileItem).

Fixpoint get_item (p : string) (items : FileItems) : option FileItem :=
  match items with
  | [] => None
  | (k, item) :: r => if String.eqb k p then Some item else get_item p r
  end.

(** A leaf's view, cast to [FileExplorer].  The cast is unchecked, so
    [fileItems] is missing on a view of another kind. *)
Record FileExplorer : Type := { fileItems : option FileItems }.

Record WorkspaceLeaf : Type := { view : option FileExplorer }.

Section Synchronizer.
Context {Num : NumberOps} {Mom : Moment}.

Record CachedMetadata : Type := { frontmatter : option FrontMatterCache }.

(** The fields of the plugin object.  [fileExplorer] is the view as it is
    while an operation below runs; the host changes its view between the
    operations, not during them. *)
Record ErikaPlugin : Type := {
  settings : PluginSettings;
  fileExplorer : option FileExplorer;
}.

(** The effects the plugin has on its host, in the order they happen. *)
Inductive event : Type :=
| SetAttribute (el : HTMLElement) (name text : string)
| SaveData (s : PluginSettings)
| ConsoleError (e : exn)
| SetTimeout (ms : nat).

(** The host as the plugin sees it: the metadata cache it reads, the
    attributes of the DOM elements it writes, the saved plugin data, and the
    trace of the effects so far.  [refreshes] is a ghost counter of the calls
    of [updateFileExplorer]. *)
Record Host : Type := {
  metadataCache : gmap string CachedMetadata;
  attributes : gmap (HTMLElement * string) string;
  data : option PluginSettings;
  trace : list event;
  refreshes : nat;
}.

(** Computations that read and change the host and may throw. *)
Definition M (A : Type) : Type := Host -> result A * Host.

#[global] Instance M_ret : MRet M := fun A a h => (OK a, h).
#[global] Instance M_bind : MBind M := fun A B f m h =>
  match m h with
  | (OK a, h') => f a h'
  | (Throw e, h') => (Throw e, h')
  end.

Definition throw {A : Type} (e : exn) : M A := fun h => (Throw e, h).

Definition lift {A : Type} (r : result A) : M A := fun h => (r, h).

(** [this.app.metadataCache.getFileCache(file)] *)
Definition getFileCache (f : TFile) : M (option CachedMetadata) :=
  fun h => (OK (metadataCache h !! path f), h).

(** [el.setAttribute(name, text)] *)
Definition setAttribute (el : HTMLElement) (name text : string) : M unit :=
  fun h => (OK (),
            {| metadataCache := metadataCache h;
               attributes := <[(el, name) := text]> (attributes h);
               data := data h;
               trace := trace h ++ [SetAttribute el name text];
               refreshes := refreshes h |}).

(** [this.saveData(settings)] *)
Definition saveData (s : PluginSettings) : M unit :=
  fun h => (OK (),
            {| metadataCache := metadataCache h;
               attributes := attributes h;
               data := Some s;
               trace := trace h ++ [SaveData s];
               refreshes := refreshes h |}).

(** [console.error] and [setTimeout], as far as the trace records them. *)
Definition emit (e : event) (h : Host) : Host :=
  {| metadataCache := metadataCache h;
     attributes := attributes h;
     data := data h;
     trace := trace h ++ [e];
     refreshes := refreshes h |}.

(** Ticks the ghost counter. *)
Definition count_refresh : M unit :=
  fun h => (OK (),
            {| metadataCache := metadataCache h;
               attributes := attributes h;
               data := data h;
               trace := trace h;
               refreshes := S (refreshes h) |}).

(** A loop body run on every element in turn; a throw leaves the loop. *)
Fixpoint forM_ {A : Type} (l : list A) (body : A -> M unit) : M unit :=
  match l with
  | [] => mret ()
  | x :: r => body x ;; forM_ r body
  end.

(** ** The display synchronizer *)

Definition updateFileDisplay (p : ErikaPlugin) (f : TFile) : M unit :=
  match fileExplorer p with
  | None => mret ()
  | Some fe =>
      match fileItems fe with
      | None => throw TypeError
      | Some items =>
          match get_item (path f) items with
          | Some item =>
              cache ← getFileCache f;
              text ← lift (calcDisplayText (settings p) (cache ≫= frontmatter));
              setAttribute (selfEl item) "data-erika-value" text
          | None =>
              (* [fileItems[file.path]] is [undefined], which cannot be
                 destructured; under a name that [Object.prototype] answers it
                 is a function without [selfEl], and the throw comes at
                 [selfEl.setAttribute] *)
              match object_prototype (path f) with
              | None => throw TypeError
              | Some _ =>
                  cache ← getFileCache f;
                  _ ← lift (calcDisplayText (settings p) (cache ≫= frontmatter));
                  throw TypeError
              end
          end
      end
  end.

Definition updateFileExplorer (p : ErikaPlugin) : M unit :=
  count_refresh ;;
  match fileExplorer p with
  | None => mret ()
  | Some fe =>
      (* [for ... in] over [undefined] runs no iteration *)
      let items := default [] (fileItems fe) in
      forM_ (map fst items)
        (fun path =>
           match get_item path items with
           | None => throw TypeError
           | Some item =>
               match file item with
               | AFile f => updateFileDisplay p f
               | AFolder _ => mret ()
               end
           end)
  end.

Definition saveAndUpdateDisplay (p : ErikaPlugin) : M unit :=
  updateFileExplorer p ;;
  saveData (settings p).

(** The callback of [iterateAllLeaves], folded over the leaves with the
    variable [foundLeaf]. *)
Fixpoint iterateAllLeaves (leaves : list WorkspaceLeaf)
    (foundLeaf : option WorkspaceLeaf) : option WorkspaceLeaf :=
  match leaves with
  | [] => foundLeaf
  | leaf :: r =>
      iterateAllLeaves r
        match foundLeaf with
        | Some _ => foundLeaf
        | None =>
            match view leaf with
            | None => None
            | Some v =>
                match fileItems v with
                | None => None
                | Some _ => Some leaf
                end
            end
        end
  end.

Definition getFileExplorerLeaf (leaves : list WorkspaceLeaf) : result WorkspaceLeaf :=
  match iterateAllLeaves leaves None with
  | Some leaf => OK leaf
  | None => Throw (Error "Could not find file explorer leaf")
  end.

(** How far [init] has come when the fuel is spent: settled with the handle
    acquired and the refresh done, or with a retry still scheduled. *)
Inductive progress : Type := Settled | Retrying.

(** [init], with the retries that [setTimeout] schedules unrolled.
    [onLayoutReady] runs its callback once the layout is ready; [layout k] is
    what the workspace holds when the callback runs for the [k]-th time, and
    [fuel] bounds the number of runs.  The assignment to [this.fileExplorer]
    stays when the refresh after it throws. *)
Fixpoint init (fuel : nat) (layout : nat -> list WorkspaceLeaf) (attempt : nat)
    (p : ErikaPlugin) (h : Host) : progress * ErikaPlugin * Host :=
  match fuel with
  | 0 => (Retrying, p, h)
  | S fuel' =>
      match getFileExplorerLeaf (layout attempt) with
      | OK leaf =>
          let p' := {| settings := settings p; fileExplorer := view leaf |} in
          match updateFileExplorer p' h with
          | (OK _, h') => (Settled, p', h')
          | (Throw error, h') =>
              init fuel' layout (S attempt) p'
                (emit (SetTimeout 1000) (emit (ConsoleError error) h'))
          end
      | Throw error =>
          init fuel' layout (S attempt) p
            (emit (SetTimeout 1000) (emit (ConsoleError error) h))
      end
  end.

(** The delays of the timers in a trace. *)
Fixpoint timeouts (tr : list event) : list nat :=
  match tr with
  | [] => []
  | SetTimeout ms :: r => ms :: timeouts r
  | _ :: r => timeouts r
  end.

End Synchronizer.

(** ** Loading and saving the settings *)

(** What [loadData] resolves with: the parsed [data.json], in which either
    key may be missing; [None] stands for [null], when nothing was saved. *)
Record PluginData : Type := {
  data_list : option (list ListItem);
  data_separator : option string;
}.

(** The document that [saveData] writes for a settings object. *)
Definition to_data (s : PluginSettings) : PluginData :=
  {| data_list := Some (settings_list s); data_separator := Some (separator s) |}.

(** [Object.assign({}, DEFAULT_SETTINGS, loaded)]: a shallow merge, key by
    key; a [null] source is skipped. *)
Definition loadSettings (loaded : option PluginData) : PluginSettings :=
  {| settings_list :=
       default (settings_list DEFAULT_SETTINGS) (loaded ≫= data_list);
     separator :=
       default (separator DEFAULT_SETTINGS) (loaded ≫= data_separator) |}.

Section Persistence.
Context {Num : NumberOps} {Mom : Moment}.

(** [this.loadData()] *)
Definition loadData (h : Host) : option PluginData := to_data <$> data h.

Definition saveSettings (p : ErikaPlugin) : M unit := saveData (settings p).

End Persistence.

(** ** The settings tab *)

Definition FrontmatterType_TYPES : list FrontmatterType := [Raw; Date].

(** The controls that [display] puts into the tab, each with what it shows.
    The translated captions are left out. *)
Inductive control : Type :=
| SeparatorText (value : string)
| Heading (order : string)
| RemoveButton (i : nat)
| TypeDropdown (i : nat) (options : list FrontmatterType) (value : FrontmatterType)
| KeyText (i : nat) (value : string)
| FormatText (i : nat) (placeholder value : string)
| AddButton.

(** One turn of the loop of [display], for the item at index [i]. *)
Definition item_controls (i : nat) (item : ListItem) : list control :=
  let hasMore := Nat.ltb 0 i in
  let order := if hasMore then pretty (i + 1) else "" in
  [Heading order]
  ++ (if hasMore then [RemoveButton i] else [])
  ++ [TypeDropdown i FrontmatterType_TYPES (type item); KeyText i (key item)]
  ++ (if String.eqb (type item) Date
      then [FormatText i "YYYY-MM-DD" (default "" (format item))]
      else []).

Definition display (s : PluginSettings) : list control :=
  [SeparatorText (separator s)]
  ++ concat (imap item_controls (settings_list s))
  ++ [AddButton].

(** What the user does to a control. *)
Inductive ui_event : Type :=
| SeparatorChange (value : string)
| RemoveClick (i : nat)
| TypeChange (i : nat) (value : FrontmatterType)
| KeyChange (i : nat) (value : string)
| FormatChange (i : nat) (value : string)
| AddClick.

(** The event is one that the control can raise; a dropdown only offers its
    options. *)
Definition raises (c : control) (e : ui_event) : bool :=
  match c, e with
  | SeparatorText _, SeparatorChange _ => true
  | RemoveButton i, RemoveClick j => Nat.eqb i j
  | TypeDropdown i options _, TypeChange j value =>
      Nat.eqb i j && existsb (String.eqb value) options
  | KeyText i _, KeyChange j _ => Nat.eqb i j
  | FormatText i _ _, FormatChange j _ => Nat.eqb i j
  | AddButton, AddClick => true
  | _, _ => false
  end.

(** The tab as displayed for [s] has a control that raises the event. *)
Definition rendered (s : PluginSettings) (e : ui_event) : bool :=
  existsb (fun c => raises c e) (display s).

(** What the handler of the control does to [this.plugin.settings], before
    it calls [saveAndUpdateDisplay]. *)
Definition mutate (s : PluginSettings) (e : ui_event) : PluginSettings :=
  match e with
  | SeparatorChange value =>
      {| settings_list := settings_list s; separator := value |}
  | RemoveClick i =>
      (* [list.splice(i, 1)] *)
      {| settings_list := delete i (settings_list s); separator := separator s |}
  | TypeChange i value =>
      {| settings_list :=
           alter (fun item => {| key := key item; type := value; format := format item |})
             i (settings_list s);
         separator := separator s |}
  | KeyChange i value =>
      {| settings_list :=
           alter (fun item => {| key := value; type := type item; format := format item |})
             i (settings_list s);
         separator := separator s |}
  | FormatChange i value =>
      {| settings_list :=
           alter (fun item => {| key := key item; type := type item; format := Some value |})
             i (settings_list s);
         separator := separator s |}
  | AddClick =>
      (* [list.push({ key: '', type: FrontmatterType.Raw })] *)
      {| settings_list := settings_list s ++ [ {| key := ""; type := Raw; format := None |} ];
         separator := separator s |}
  end.

(** A session in the settings tab: each event reaches the handler of a
    control that is displayed at that moment. *)
Definition edits (s : PluginSettings) (es : list ui_event) : PluginSettings :=
  foldl (fun s e => if rendered s e then mutate s e else s) s es.

Section Handlers.
Context {Num : NumberOps} {Mom : Moment}.

(** A handler of the settings tab, as a whole: the settings are changed in
    place, then saved and shown. *)
Definition handle (p : ErikaPlugin) (e : ui_event) : ErikaPlugin * M unit :=
  let p' := {| settings := mutate (settings p) e; fileExplorer := fileExplorer p |} in
  (p', saveAndUpdateDisplay p').

End Handlers.

(** ** The language of the translations ([i18n]) *)

(** [String.prototype.toLocaleLowerCase] on the letters A to Z, which is
    what the keys of [resources] hold. *)
Definition lower (c : ascii) : ascii :=
  let n := nat_of_ascii c in
  if Nat.leb 65 n && Nat.leb n 90 then ascii_of_nat (n + 32) else c.

Fixpoint toLocaleLowerCase (s : string) : string :=
  match s with
  | EmptyString => EmptyString
  | String c r => String (lower c) (toLocaleLowerCase r)
  end.

(** [Object.keys(resources)] *)
Definition resources_keys : list string := ["en"; "zh-CN"].

(** [translationLanguage], as a function of what [moment.locale()] answers. *)
Definition translationLanguage (locale : string) : string :=
  match find (fun i => String.eqb (toLocaleLowerCase i) locale) resources_keys with
  | Some _ => locale
  | None => "en"
  end.

(** ** Notions used in the statements *)

Section Notions.
Context {Num : NumberOps} {Mom : Moment}.

(** [ToString] returns on the value: no object that is reached through its
    arrays has an own property named [toString]. *)
Fixpoint printable (v : value) : bool :=
  match v with
  | VArr elems => forallb printable elems
  | VObj props => negb (has_own "toString" props)
  | _ => true
  end.

(** What a [Raw] extractor can read without a throw: an array must be
    printable, since a non-empty one passes the filter and is joined; an
    object needs a [length] that the filter can compare with [0], and, when
    that [length] is positive, no own [toString], since it is then joined.
    Every other value is harmless. *)
Definition raw_returns (v : value) : Prop :=
  match v with
  | VArr _ => printable v = true
  | VObj props =>
      printable (get props "length") = true
      /\ (gt0 (get props "length") = OK true -> has_own "toString" props = false)
  | _ => True
  end.

(** The extractor is harmless on the snapshot: a [Raw] one by what it reads,
    a [Date] one when the formatter returns on the truthy value it reads. *)
Definition item_returns (fm : FrontMatterCache) (item : ListItem) : Prop :=
  if String.eqb (type item) Raw then raw_returns (get fm (key item))
  else if String.eqb (type item) Date then
    to_boolean (get fm (key item)) = true ->
    exists s, moment_format (get fm (key item)) (format item) = OK s
  else True.

(** The filter and the join return on this output of an extractor. *)
Definition output_returns (v : value) : Prop :=
  match length_gt0 v with
  | OK true => exists s, element_to_string v = OK s
  | OK false => True
  | Throw _ => False
  end.

(** Two states of the formatter give the same answer to every [Date]
    extractor of the settings on the truthy value it reads in [fm]. *)
Definition dates_agree (M1 M2 : Moment) (s : PluginSettings) (fm : FrontMatterCache) : Prop :=
  Forall (fun item =>
            type item = Date -> to_boolean (get fm (key item)) = true ->
            @moment_format Num M1 (get fm (key item)) (format item)
            = @moment_format Num M2 (get fm (key item)) (format item))
    (settings_list s).

(** The files that a refresh of the plugin's file explorer visits. *)
Definition visited (p : ErikaPlugin) (f : TFile) : Prop :=
  exists fe items k item,
    fileExplorer p = Some fe /\ fileItems fe = Some items
    /\ get_item k items = Some item /\ file item = AFile f.

(** A [Raw] extractor that reads a string, or a key that is nowhere: neither
    an own property of the snapshot nor a member of [Object.prototype]. *)
Definition reads_string (fm : FrontMatterCache) (item : ListItem) : Prop :=
  type item = Raw
  /\ ((exists s, get_own (key item) fm = Some (VStr s))
      \/ (get_own (key item) fm = None /\ object_prototype (key item) = None)).

(** The string such an extractor reads. *)
Definition string_at (fm : FrontMatterCache) (item : ListItem) : string :=
  match get_own (key item) fm with
  | Some (VStr s) => s
  | _ => ""
  end.

(** The leaf has a view with file items: the test of [getFileExplorerLeaf]. *)
Definition shows_files (leaf : WorkspaceLeaf) : bool :=
  match view leaf with
  | Some v => match fileItems v with Some _ => true | None => false end
  | None => false
  end.

(** The label of a file under the plugin's settings and a metadata cache. *)
Definition label_of (p : ErikaPlugin) (mc : gmap string CachedMetadata)
    (f : TFile) : result string :=
  calcDisplayText (settings p) (mc !! path f ≫= frontmatter).

(** One attribute write for every file among the items, in their order. *)
Definition file_writes (p : ErikaPlugin) (mc : gmap string CachedMetadata)
    (items : FileItems) : list (HTMLElement * string * string) :=
  flat_map (fun kv =>
              match file kv.2 with
              | AFile f =>
                  match label_of p mc f with
                  | OK text => [(selfEl kv.2, "data-erika-value", text)]
                  | Throw _ => []
                  end
              | AFolder _ => []
              end) items.

(** File items as the file explorer keeps them: one entry per path, and a
    file stored under its own path. *)
Definition consistent (items : FileItems) : Prop :=
  NoDup (map fst items)
  /\ Forall (fun kv => forall f, file kv.2 = AFile f -> path f = kv.1) items.

(** In a trace, no label is written before the settings are saved. *)
Fixpoint persist_first (tr : list event) : bool :=
  match tr with
  | [] => true
  | SaveData _ :: _ => true
  | SetAttribute _ _ _ :: _ => false
  | _ :: r => persist_first r
  end.

(** A batch of attribute writes, done in order. *)
Definition write_all (ws : list (HTMLElement * string * string)) (h : Host) : Host :=
  foldl (fun h w => (setAttribute w.1.1 w.1.2 w.2 h).2) h ws.

Definition insert_all (ws : list (HTMLElement * string * string))
    (m : gmap (HTMLElement * string) string) : gmap (HTMLElement * string) string :=
  foldl (fun m w => <[(w.1.1, w.1.2) := w.2]> m) m ws.

Definition write_events (ws : list (HTMLElement * string * string)) : list event :=
  map (fun w => SetAttribute w.1.1 w.1.2 w.2) ws.

End Notions.

(** ** Concrete numbers, formatters and hosts for the examples *)

Module Examples.

(** The doubles that are integers, and [NaN]. *)
Inductive int_number : Type :=
| NaN
| Int (z : Z).

Definition digit_of (c : ascii) : option Z :=
  let n := Z.of_nat (nat_of_ascii c) in
  if bool_decide (48 ≤ n ≤ 57)%Z then Some (n - 48)%Z else None.

Fixpoint read_digits (s : string) (acc : Z) : option Z :=
  match s with
  | EmptyString => Some acc
  | String c r =>
      match digit_of c with
      | Some d => read_digits r (10 * acc + d)%Z
      | None => None
      end
  end.

(** [StringToNumber] on the empty string and on signed decimal integer
    literals.  The strings of the examples below are of this kind or are no
    numeric literals at all; other numeric literals are not read. *)
Definition read_integer (s : string) : int_number :=
  match s with
  | EmptyString => Int 0
  | String "-"%char (String c r) =>
      match read_digits (String c r) 0 with
      | Some z => Int (- z)
      | None => NaN
      end
  | String "+"%char (String c r) | String c r =>
      match read_digits (String c r) 0 with
      | Some z => Int z
      | None => NaN
      end
  end.

#[export] Instance int_numbers : NumberOps := {|
  number := int_number;
  num_to_boolean n := match n with NaN => false | Int z => negb (Z.eqb z 0) end;
  num_to_string n := match n with NaN => "NaN" | Int z => pretty z end;
  num_gt0 n := match n with NaN => false | Int z => Z.ltb 0 z end;
  string_to_number := read_integer;
|}.

(** The number value of an integer. *)
Definition num (z : Z) : @value int_numbers := VNum (Int z).

(** A formatter that renders everything as moment's placeholder for a date
    it cannot read, and one that throws on every input. *)
Definition invalid_date : Moment := fun _ _ => OK "Invalid date".
Definition broken_moment : Moment := fun _ _ => Throw (Error "moment").

Definition raw (k : string) : ListItem :=
  {| key := k; type := Raw; format := None |}.

Definition settings_ab : PluginSettings :=
  {| settings_list := [raw "a"; raw "b"]; separator := "|" |}.

Definition settings_a : PluginSettings :=
  {| settings_list := [raw "a"]; separator := "|" |}.

(** [{a: [{toString: "x"}]}] *)
Definition fm_toString : FrontMatterCache :=
  [("a", VArr [VObj [("toString", VStr "x")]])].

(** One tracked file [a.md], whose front matter is [fm]. *)
Definition explorer_a : FileExplorer :=
  {| fileItems := Some [("a.md", {| file := AFile {| path := "a.md" |}; selfEl := 1 |})] |}.

Definition host_a (fm : FrontMatterCache) : Host :=
  {| metadataCache := {[ "a.md" := {| frontmatter := Some fm |} ]};
     attributes := ∅;
     data := None;
     trace := [];
     refreshes := 0 |}.

Definition plugin_a : ErikaPlugin :=
  {| settings := settings_a; fileExplorer := Some explorer_a |}.

Definition plugin_unacquired : ErikaPlugin :=
  {| settings := settings_a; fileExplorer := None |}.

(** A workspace whose only leaf is the file explorer, from the first attempt
    on. *)
Definition layout_ready : nat -> list WorkspaceLeaf :=
  fun _ => [ {| view := Some explorer_a |} ].

(** A workspace that shows the file explorer from the third attempt on. *)
Definition layout_late : nat -> list WorkspaceLeaf :=
  fun k => if Nat.ltb k 2 then [ {| view := None |}; {| view := Some {| fileItems := None |} |} ]
           else [ {| view := None |}; {| view := Some explorer_a |} ].

(** A formatter that knows the pattern [YYYY] on a date written year
    first, and nothing else. *)
Definition year_moment : Moment := fun v f =>
  match v, f with
  | VStr s, Some "YYYY" => OK (String.substring 0 4 s)
  | _, _ => OK "Invalid date"
  end.

(** A formatter that, as the array branch of [moment] does, reads every
    element of an array as a number, which prints it first; it knows the
    pattern [YYYY] on a date written year first. *)
Definition parsing_moment : Moment := fun v f =>
  match v, f with
  | VArr elems, _ => _ ← mapM to_string elems; OK "Invalid date"
  | VStr s, Some "YYYY" => OK (String.substring 0 4 s)
  | _, _ => OK "Invalid date"
  end.

(** A formatter along a clock that counts: a value without a date is the
    current time, a string is taken as it is. *)
Definition moment_clock (t : nat) : Moment := fun v f =>
  match v with
  | VArr [] | VObj [] => OK (pretty t)
  | VStr s => OK s
  | _ => OK "Invalid date"
  end.

#[export] Instance nat_clock : Clock := {| instant := nat; moment_at := moment_clock |}.

(** One [Date] extractor on [d]. *)
Definition settings_d : PluginSettings :=
  {| settings_list := [ {| key := "d"; type := Date; format := None |} ];
     separator := "|" |}.

Definition plugin_d : ErikaPlugin :=
  {| settings := settings_d; fileExplorer := Some explorer_a |}.

(** A folder and two files; [b.md] has no metadata. *)
Definition items_ab : FileItems :=
  [("notes", {| file := AFolder "notes"; selfEl := 0 |});
   ("a.md", {| file := AFile {| path := "a.md" |}; selfEl := 1 |});
   ("b.md", {| file := AFile {| path := "b.md" |}; selfEl := 2 |})].

Definition explorer_ab : FileExplorer := {| fileItems := Some items_ab |}.

Definition plugin_ab : ErikaPlugin :=
  {| settings := settings_a; fileExplorer := Some explorer_ab |}.

(** A workspace without a file explorer. *)
Definition layout_never : nat -> list WorkspaceLeaf :=
  fun _ => [ {| view := None |}; {| view := Some {| fileItems := None |} |} ].

End Examples.

(** * Properties of the label compiler *)

Section CompilerProperties.
Context {Num : NumberOps} {Mom : Moment}.

(** ** The [result] monad on lists *)

Lemma result_bind_assoc {A B C : Type} (m : result A) (g : A -> result B)
    (k : B -> result C) :
  (y ← (x ← m; g x); k y) = (x ← m; y ← g x; k y).
Proof. destruct m; reflexivity. Qed.

Lemma mapM_result_app {A B : Type} (f : A -> result B) (l1 l2 : list A) :
  mapM f (l1 ++ l2) = (a ← mapM f l1; b ← mapM f l2; OK (a ++ b)).
Proof.
  induction l1 as [|x l1 IH]; simpl.
  - destruct (mapM f l2); reflexivity.
  - destruct (f x) as [y|e]; simpl; [|reflexivity].
    rewrite IH. destruct (mapM f l1) as [a|e]; simpl; [|reflexivity].
    destruct (mapM f l2); reflexivity.
Qed.

Lemma filterM_app {A : Type} (f : A -> result bool) (l1 l2 : list A) :
  filterM f (l1 ++ l2) = (a ← filterM f l1; b ← filterM f l2; OK (a ++ b)).
Proof.
  induction l1 as [|x l1 IH]; simpl.
  - destruct (filterM f l2); reflexivity.
  - destruct (f x) as [c|e]; simpl; [|reflexivity].
    rewrite IH. destruct (filterM f l1) as [a|e]; simpl; [|reflexivity].
    destruct (filterM f l2) as [b|e]; simpl; [|reflexivity].
    destruct c; reflexivity.
Qed.

Lemma mapM_result_total {A B : Type} (f : A -> result B) (Q : B -> Prop) (l : list A) :
  Forall (fun x => exists y, f x = OK y /\ Q y) l ->
  exists k, mapM f l = OK k /\ Forall Q k.
Proof.
  induction 1 as [|x l (y & Hy & HQ) _ (k & Hk & HF)]; simpl.
  - exists []. split; [reflexivity | constructor].
  - exists (y :: k). rewrite Hy; simpl. rewrite Hk; simpl.
    split; [reflexivity | constructor; assumption].
Qed.

Lemma filterM_total {A : Type} (f : A -> result bool) (Q : A -> Prop) (l : list A) :
  Forall (fun x => (exists b, f x = OK b) /\ Q x) l ->
  exists k, filterM f l = OK k /\ Forall Q k.
Proof.
  induction 1 as [|x l ((b & Hb) & HQ) _ (k & Hk & HF)]; simpl.
  - exists []. split; [reflexivity | constructor].
  - rewrite Hb; simpl. rewrite Hk; simpl.
    destruct b; eexists; (split; [reflexivity|]); [constructor|]; assumption.
Qed.

(** ** An extractor that yields the empty string leaves no mark *)

Lemma extract_empty_skipped (fm : FrontMatterCache) (item : ListItem)
    (l1 l2 : list ListItem) :
  extract fm item = OK (VStr "") ->
  (outs ← mapM (extract fm) (l1 ++ item :: l2); filterM length_gt0 outs)
  = (outs ← mapM (extract fm) (l1 ++ l2); filterM length_gt0 outs).
Proof.
  intros He. rewrite !mapM_result_app. simpl. rewrite He. simpl.
  destruct (mapM (extract fm) l1) as [a|e]; simpl; [|reflexivity].
  destruct (mapM (extract fm) l2) as [b|e]; simpl; [|reflexivity].
  rewrite !filterM_app. simpl.
  destruct (filterM length_gt0 a) as [a'|e]; simpl; [|reflexivity].
  destruct (filterM length_gt0 b) as [b'|e]; reflexivity.
Qed.

Lemma calcDisplayText_skip_empty (frontmatter : option FrontMatterCache)
    (item : ListItem) (l1 l2 : list ListItem) (sep : string) :
  (forall fm, frontmatter = Some fm -> extract fm item = OK (VStr "")) ->
  calcDisplayText {| settings_list := l1 ++ item :: l2; separator := sep |} frontmatter
  = calcDisplayText {| settings_list := l1 ++ l2; separator := sep |} frontmatter.
Proof.
  intros He. destruct frontmatter as [fm|]; [|reflexivity].
  unfold calcDisplayText. cbn [settings_list separator].
  rewrite <- !result_bind_assoc.
  rewrite (extract_empty_skipped fm item l1 l2 (He fm eq_refl)). reflexivity.
Qed.

End CompilerProperties.

Section CompilerClaims.
Context {Num : NumberOps} {Mom : Moment}.

(** ** Extractors of an unknown kind, dates on falsy values, the defaults *)

Lemma extract_unknown_kind (fm : FrontMatterCache) (item : ListItem) :
  type item <> Raw -> type item <> Date -> extract fm item = OK (VStr "").
Proof.
  intros HR HD. unfold extract.
  apply String.eqb_neq in HR, HD. rewrite HR, HD. reflexivity.
Qed.

Lemma extract_date_falsy (fm : FrontMatterCache) (item : ListItem) (v : value) :
  type item = Date -> get_own (key item) fm = Some v -> to_boolean v = false ->
  extract fm item = OK (VStr "").
Proof.
  intros HD Hv Hf. unfold extract, get. rewrite HD, Hv, Hf. reflexivity.
Qed.

(** C8: an extractor whose kind is neither [Raw] nor [Date] yields the empty
    string on every snapshot, and the label is the one computed without it:
    it adds nothing to the joined output and raises no error of its own. *)
Theorem calcDisplayText_unknown_kind (frontmatter : option FrontMatterCache)
    (item : ListItem) (l1 l2 : list ListItem) (sep : string) :
  type item <> Raw -> type item <> Date ->
  (forall fm, extract fm item = OK (VStr "")) /\
  calcDisplayText {| settings_list := l1 ++ item :: l2; separator := sep |} frontmatter
  = calcDisplayText {| settings_list := l1 ++ l2; separator := sep |} frontmatter.
Proof.
  intros HR HD. split.
  - intros fm. apply extract_unknown_kind; assumption.
  - apply calcDisplayText_skip_empty. intros fm _.
    apply extract_unknown_kind; assumption.
Qed.

(** C9: a [Date] extractor whose key is present with a falsy value yields the
    empty string, and the label is the one computed without it.  This holds
    for every formatter, also one that throws on every input: the formatter
    is not called. *)
Theorem calcDisplayText_date_falsy (fm : FrontMatterCache) (item : ListItem)
    (v : value) (l1 l2 : list ListItem) (sep : string) :
  type item = Date -> get_own (key item) fm = Some v -> to_boolean v = false ->
  extract fm item = OK (VStr "") /\
  calcDisplayText {| settings_list := l1 ++ item :: l2; separator := sep |} (Some fm)
  = calcDisplayText {| settings_list := l1 ++ l2; separator := sep |} (Some fm).
Proof.
  intros HD Hv Hf.
  pose proof (extract_date_falsy fm item v HD Hv Hf) as He.
  split; [exact He|].
  apply calcDisplayText_skip_empty. intros fm' [= <-]. exact He.
Qed.

(** C10: under [DEFAULT_SETTINGS] the label of a snapshot without a property
    named by the empty string is empty, as is that of an absent snapshot. *)
Theorem calcDisplayText_default_empty (frontmatter : option FrontMatterCache) :
  (forall fm, frontmatter = Some fm -> get_own "" fm = None) ->
  calcDisplayText DEFAULT_SETTINGS frontmatter = OK "".
Proof.
  intros Hfm. destruct frontmatter as [fm|]; [|reflexivity].
  unfold calcDisplayText, DEFAULT_SETTINGS, extract, get. simpl.
  rewrite (Hfm fm eq_refl). reflexivity.
Qed.

(** ** Numbers under a [Raw] extractor *)

Lemma get_own_head (k : string) (v : value) (o : object) :
  get_own k ((k, v) :: o) = Some v.
Proof. simpl. rewrite String.eqb_refl. reflexivity. Qed.

(** Whatever the number, a [Raw] extractor that reads it adds nothing to the
    label: a falsy one becomes the empty string, a truthy one has no
    [length] and is filtered out. *)
Lemma calcDisplayText_raw_number (k sep : string) (n : number) (o : object) :
  calcDisplayText {| settings_list := [ {| key := k; type := Raw; format := None |} ];
                     separator := sep |} (Some ((k, VNum n) :: o)) = OK "".
Proof.
  unfold calcDisplayText, extract, get. cbn [settings_list type key mapM].
  rewrite get_own_head. simpl. destruct (num_to_boolean n); reflexivity.
Qed.

(** ** Snapshots of strings

    On the extractors that read strings the code and the specification
    agree: the label is the non-empty strings, in order, joined by the
    separator between two spaces. *)

Lemma extract_reads_string (fm : FrontMatterCache) (item : ListItem) :
  reads_string fm item ->
  extract fm item = OK (VStr (string_at fm item))
  /\ spec_output fm item = OK (string_at fm item).
Proof.
  intros [HR [[s Hs] | [Hn Hp]]]; unfold extract, spec_output, get, string_at;
    rewrite HR, String.eqb_refl.
  - rewrite Hs. destruct s; split; reflexivity.
  - rewrite Hn, Hp. split; reflexivity.
Qed.

Lemma mapM_reads_string (fm : FrontMatterCache) (l : list ListItem) :
  Forall (reads_string fm) l ->
  mapM (extract fm) l = OK (map VStr (map (string_at fm) l))
  /\ mapM (spec_output fm) l = OK (map (string_at fm) l).
Proof.
  induction 1 as [|item l Hitem _ [IH1 IH2]]; [split; reflexivity|].
  destruct (extract_reads_string fm item Hitem) as [H1 H2].
  simpl. rewrite H1, H2. simpl. rewrite IH1, IH2. split; reflexivity.
Qed.

Lemma filterM_length_strings (ss : list string) :
  filterM length_gt0 (map VStr ss) = OK (map VStr (filter (fun s => s <> "") ss)).
Proof.
  induction ss as [|s ss IH]; [reflexivity|].
  simpl. rewrite IH. simpl. rewrite filter_cons.
  destruct s; [rewrite decide_False by congruence | rewrite decide_True by discriminate];
    reflexivity.
Qed.

Lemma Array_join_strings (sep : string) (ss : list string) :
  Array_join sep (map VStr ss) = OK (String.concat sep ss).
Proof.
  unfold Array_join.
  assert (H : mapM element_to_string (map VStr ss) = OK ss).
  { induction ss as [|s ss IH]; [reflexivity|]. simpl. rewrite IH. reflexivity. }
  rewrite H. reflexivity.
Qed.

(** When every extractor is [Raw] and reads a string or a key that is
    nowhere, the label is the non-empty strings read, in the order of the
    extractors, joined by the separator between two spaces; it is what the
    specification's wording computes. *)
Lemma calcDisplayText_on_strings (settings : PluginSettings) (fm : FrontMatterCache) :
  Forall (reads_string fm) (settings_list settings) ->
  calcDisplayText settings (Some fm)
  = OK (String.concat (" " +:+ separator settings +:+ " ")
          (filter (fun s => s <> "") (map (string_at fm) (settings_list settings))))
  /\ spec_compile settings (Some fm) = calcDisplayText settings (Some fm).
Proof.
  intros Hall. destruct (mapM_reads_string fm _ Hall) as [H1 H2].
  unfold calcDisplayText, spec_compile. rewrite H1, H2. simpl.
  rewrite filterM_length_strings. simpl. rewrite Array_join_strings.
  split; reflexivity.
Qed.

End CompilerClaims.

(** ** Where the compiler returns *)

Section Totality.
Context {Num : NumberOps} {Mom : Moment}.

(** Induction on values that reaches into arrays and objects. *)
Lemma value_nested_ind (P : value -> Prop) :
  P VUndefined -> P VNull -> (forall b, P (VBool b)) -> (forall n, P (VNum n)) ->
  (forall s, P (VStr s)) ->
  (forall elems, Forall P elems -> P (VArr elems)) ->
  (forall props, Forall (fun kv => P kv.2) props -> P (VObj props)) ->
  (forall name arity, P (VFun name arity)) ->
  forall v, P v.
Proof.
  intros HU HN HB HNum HS HA HO HF.
  fix IH 1. intros [| |b|n|s|elems|props|name arity].
  - exact HU.
  - exact HN.
  - apply HB.
  - apply HNum.
  - apply HS.
  - apply HA. induction elems as [|e elems IHl]; constructor; [apply IH | exact IHl].
  - apply HO. induction props as [|[k w] props IHl]; constructor; [apply IH | exact IHl].
  - apply HF.
Qed.

Lemma to_string_array (elems : list value) :
  to_string (VArr elems)
  = (strs ← mapM element_to_string elems; OK (String.concat "," strs)).
Proof. reflexivity. Qed.

Lemma mapM_returns_iff {A B : Type} (f : A -> result B) (l : list A) :
  (exists k, mapM f l = OK k) <-> Forall (fun x => exists y, f x = OK y) l.
Proof.
  induction l as [|x l IH]; simpl.
  - split; [constructor | exists []; reflexivity].
  - rewrite Forall_cons, <- IH. destruct (f x) as [y|e]; simpl.
    + destruct (mapM f l) as [k|e]; simpl.
      * split; [eauto | intros _; eauto].
      * split; [intros [k [=]] | intros [_ [k [=]]]].
    + split; [intros [k [=]] | intros [[y [=]] _]].
Qed.

Lemma mapM_Forall2 {A B : Type} (f : A -> result B) (l : list A) (k : list B) :
  mapM f l = OK k -> Forall2 (fun x y => f x = OK y) l k.
Proof.
  revert k. induction l as [|x l IH]; simpl; intros k.
  - intros [= <-]. constructor.
  - destruct (f x) as [y|e] eqn:Hx; simpl; [|discriminate].
    destruct (mapM f l) as [k'|e]; simpl; [|discriminate].
    intros [= <-]. constructor; [exact Hx | apply IH; reflexivity].
Qed.

Lemma element_to_string_returns (v : value) :
  (exists s, element_to_string v = OK s) <-> (exists s, to_string v = OK s).
Proof. destruct v; simpl; split; eauto. Qed.

(** [ToString] returns exactly on the printable values. *)
Lemma to_string_printable (v : value) :
  (exists s, to_string v = OK s) <-> printable v = true.
Proof.
  induction v as [| |b|n|s|elems IH|props _|name arity] using value_nested_ind;
    try solve [simpl; split; eauto].
  - rewrite to_string_array. cbn [printable].
    transitivity (exists k, mapM element_to_string elems = OK k).
    + destruct (mapM element_to_string elems) as [k|e]; simpl;
        split; eauto; intros [? [=]].
    + rewrite mapM_returns_iff, forallb_forall, Forall_forall.
      rewrite Forall_forall in IH.
      split; intros H e He.
      * apply list_elem_of_In in He. apply IH; [exact He|].
        apply element_to_string_returns, H, He.
      * apply element_to_string_returns, IH; [exact He|].
        apply H, list_elem_of_In, He.
  - cbn [to_string printable].
    destruct (has_own "toString" props); simpl; split; eauto;
      [intros [s [=]] | discriminate].
Qed.

(** The comparison with [0] returns exactly on the printable values. *)
Lemma gt0_printable (v : value) :
  (exists b, gt0 v = OK b) <-> printable v = true.
Proof.
  rewrite <- to_string_printable.
  destruct v; unfold gt0; try solve [simpl; split; eauto];
    destruct (to_string _) as [s|e]; simpl; split; eauto; intros [? [=]].
Qed.

Lemma output_returns_string (s : string) : output_returns (VStr s).
Proof. unfold output_returns. simpl. destruct (Nat.ltb 0 (String.length s)); eauto. Qed.

(** On what [frontmatter[key] || ''] yields, the filter and the join return
    exactly when the value read is harmless. *)
Lemma output_returns_raw (v : value) :
  output_returns (if to_boolean v then v else VStr "") <-> raw_returns v.
Proof.
  destruct v as [| |b|n|s|elems|props|name arity]; cbn [to_boolean raw_returns].
  - split; [auto | intros _; apply output_returns_string].
  - split; [auto | intros _; apply output_returns_string].
  - destruct b; unfold output_returns; simpl; tauto.
  - destruct (num_to_boolean n); unfold output_returns; simpl; tauto.
  - destruct (negb (String.eqb s "")); split; auto; intros _; apply output_returns_string.
  - unfold output_returns. cbn [length_gt0].
    destruct elems as [|e elems]; [simpl; tauto|].
    cbn [length Nat.ltb Nat.leb].
    rewrite element_to_string_returns. apply to_string_printable.
  - unfold output_returns. cbn [length_gt0].
    pose proof (gt0_printable (get props "length")) as Hgt.
    destruct (gt0 (get props "length")) as [[|]|e].
    + rewrite element_to_string_returns, to_string_printable. cbn [printable].
      rewrite negb_true_iff. split.
      * intros Hown. split; [apply Hgt; eauto | auto].
      * intros [_ Hown]. auto.
    + split; [|auto]. intros _. split; [apply Hgt; eauto | discriminate].
    + split; [contradiction|]. intros [Hp _]. apply Hgt in Hp as [b [=]].
  - unfold output_returns. simpl. destruct (Nat.ltb 0 arity); split; eauto.
Qed.

(** An extractor is harmless exactly when its own output comes through the
    map, the filter and the join. *)
Lemma item_returns_output (fm : FrontMatterCache) (item : ListItem) :
  item_returns fm item <-> exists v, extract fm item = OK v /\ output_returns v.
Proof.
  unfold item_returns, extract.
  destruct (String.eqb (type item) Raw).
  - rewrite <- output_returns_raw. split; [eauto | intros (v & [= <-] & Hv); exact Hv].
  - destruct (String.eqb (type item) Date).
    + destruct (to_boolean (get fm (key item))).
      * destruct (moment_format (get fm (key item)) (format item)) as [s|e]; simpl.
        -- split; [|eauto]. intros _. exists (VStr s). split; [reflexivity|].
           apply output_returns_string.
        -- split; [intros H; destruct (H eq_refl) as [s [=]] | intros (v & [=] & _)].
      * split; [|discriminate]. intros _. exists (VStr ""). split; [reflexivity|].
        apply output_returns_string.
    + split; [|auto]. intros _. exists (VStr ""). split; [reflexivity|].
      apply output_returns_string.
Qed.

(** The filter and the join return on a list of outputs exactly when they
    return on each of them. *)
Lemma filter_join_returns (sep : string) (outs : list value) :
  (exists s, (kept ← filterM length_gt0 outs; Array_join sep kept) = OK s)
  <-> Forall output_returns outs.
Proof.
  transitivity (exists kept strs, filterM length_gt0 outs = OK kept
                                  /\ mapM element_to_string kept = OK strs).
  { unfold Array_join. destruct (filterM length_gt0 outs) as [kept|e]; simpl.
    - destruct (mapM element_to_string kept) as [strs|e] eqn:Hm; simpl.
      + split; [intros _; exists kept, strs; auto | eauto].
      + split; [intros [s [=]] | intros (? & ? & [= <-] & Hk); congruence].
    - split; [intros [s [=]] | intros (? & ? & [=] & _)]. }
  induction outs as [|v outs IH]; simpl.
  - split; [constructor | intros _; exists [], []; split; reflexivity].
  - rewrite Forall_cons, <- IH. unfold output_returns.
    destruct (length_gt0 v) as [[|]|e]; simpl.
    + destruct (filterM length_gt0 outs) as [kept|e]; simpl.
      * split.
        -- intros (? & strs & [= <-] & Hs). simpl in Hs.
           destruct (element_to_string v) as [s|e] eqn:Hv; simpl in Hs; [|discriminate].
           destruct (mapM element_to_string kept) as [ss|e] eqn:Hk; simpl in Hs;
             [|discriminate].
           split; [eauto | exists kept, ss; auto].
        -- intros ([s Hs] & kept' & strs & [= <-] & Hk).
           exists (v :: kept), (s :: strs). split; [reflexivity|].
           simpl. rewrite Hs. simpl. rewrite Hk. reflexivity.
      * split; [intros (? & ? & [=] & _) | intros (_ & ? & ? & [=] & _)].
    + destruct (filterM length_gt0 outs) as [kept|e]; simpl.
      * split; [intros (? & strs & [= <-] & Hs); eauto | intros (_ & H); exact H].
      * split; [intros (? & ? & [=] & _) | intros (_ & ? & ? & [=] & _)].
    + split; [intros (? & ? & [=] & _) | intros ([] & _)].
Qed.

(** [calcDisplayText] returns on a snapshot exactly when every extractor is
    harmless on it: the extractors fail or succeed each on its own. *)
Lemma calcDisplayText_returns_iff (settings : PluginSettings) (fm : FrontMatterCache) :
  (exists s, calcDisplayText settings (Some fm) = OK s)
  <-> Forall (item_returns fm) (settings_list settings).
Proof.
  unfold calcDisplayText. split.
  - intros [s Hs].
    destruct (mapM (extract fm) (settings_list settings)) as [outs|e] eqn:Houts;
      [|discriminate].
    simpl in Hs. assert (Hall : Forall output_returns outs)
      by (eapply filter_join_returns; eauto).
    apply mapM_Forall2 in Houts. clear Hs.
    induction Houts as [|item v l outs Hitem _ IH]; [constructor|].
    apply Forall_cons in Hall as [Hv Hall].
    constructor; [apply item_returns_output; eauto | exact (IH Hall)].
  - intros Hall.
    destruct (mapM_result_total (extract fm) output_returns (settings_list settings))
      as (outs & Houts & Hok).
    { eapply Forall_impl; [exact Hall|]. intros item. apply item_returns_output. }
    rewrite Houts. simpl. apply filter_join_returns. exact Hok.
Qed.

(** C5, amended: [calcDisplayText] returns a string on the absent snapshot,
    and on a present one whenever every extractor is harmless on it: a [Date]
    extractor that reads a truthy value needs the formatter to return on that
    value and format; a [Raw] extractor that reads an array needs it
    printable; a [Raw] extractor that reads an object needs a printable
    [length] and, when that is positive, no own [toString].  Fields that no
    extractor reads, and every other value, do not matter. *)
Theorem calcDisplayText_total (settings : PluginSettings)
    (frontmatter : option FrontMatterCache) :
  (forall fm, frontmatter = Some fm -> Forall (item_returns fm) (settings_list settings)) ->
  exists s, calcDisplayText settings frontmatter = OK s.
Proof.
  intros Hfm. destruct frontmatter as [fm|]; [|exists ""; reflexivity].
  apply calcDisplayText_returns_iff, Hfm. reflexivity.
Qed.

(** Nothing more can be asked: where an extractor is not harmless,
    [calcDisplayText] throws. *)
Lemma calcDisplayText_throws_otherwise (settings : PluginSettings)
    (fm : FrontMatterCache) :
  ~ Forall (item_returns fm) (settings_list settings) ->
  exists e, calcDisplayText settings (Some fm) = Throw e.
Proof.
  intros Hnot. destruct (calcDisplayText settings (Some fm)) as [s|e] eqn:Hc; [|eauto].
  exfalso. apply Hnot, calcDisplayText_returns_iff. eauto.
Qed.

End Totality.

(** * Properties of the display synchronizer *)

Section SynchronizerProperties.
Context {Num : NumberOps} {Mom : Moment}.

(** ** Batches of attribute writes *)

Lemma insert_all_absorb (ws : list (HTMLElement * string * string))
    (k : HTMLElement * string) (v : string) (m : gmap (HTMLElement * string) string) :
  <[k := v]> (insert_all ws (<[k := v]> m)) = <[k := v]> (insert_all ws m).
Proof.
  revert m. induction ws as [|w ws IH]; intros m; simpl.
  - apply insert_insert_eq.
  - unfold insert_all in *. simpl.
    destruct (decide (k = (w.1.1, w.1.2))) as [->|Hne].
    + rewrite insert_insert_eq. reflexivity.
    + rewrite (insert_insert_ne m) by congruence. apply IH.
Qed.

Lemma insert_all_snoc (ws : list (HTMLElement * string * string))
    (w : HTMLElement * string * string) (m : gmap (HTMLElement * string) string) :
  insert_all (ws ++ [w]) m = <[(w.1.1, w.1.2) := w.2]> (insert_all ws m).
Proof. unfold insert_all. rewrite foldl_app. reflexivity. Qed.

(** Writing the same batch a second time changes no attribute. *)
Lemma insert_all_idem (ws : list (HTMLElement * string * string))
    (m : gmap (HTMLElement * string) string) :
  insert_all ws (insert_all ws m) = insert_all ws m.
Proof.
  induction ws as [|w ws IH] using rev_ind; [reflexivity|].
  rewrite !insert_all_snoc, insert_all_absorb, IH. reflexivity.
Qed.

Lemma write_all_app (ws1 ws2 : list (HTMLElement * string * string)) (h : Host) :
  write_all (ws1 ++ ws2) h = write_all ws2 (write_all ws1 h).
Proof. unfold write_all. apply foldl_app. Qed.

Lemma write_all_fields (ws : list (HTMLElement * string * string)) (h : Host) :
  metadataCache (write_all ws h) = metadataCache h
  /\ attributes (write_all ws h) = insert_all ws (attributes h)
  /\ data (write_all ws h) = data h
  /\ trace (write_all ws h) = trace h ++ write_events ws
  /\ refreshes (write_all ws h) = refreshes h.
Proof.
  revert h. induction ws as [|w ws IH]; intros h.
  - simpl. rewrite app_nil_r. auto.
  - change (write_all (w :: ws) h)
      with (write_all ws (setAttribute w.1.1 w.1.2 w.2 h).2).
    destruct (IH (setAttribute w.1.1 w.1.2 w.2 h).2) as (H1 & H2 & H3 & H4 & H5).
    rewrite H1, H2, H3, H4, H5. simpl. rewrite <- app_assoc. auto.
Qed.

Lemma count_refresh_attributes (h : Host) :
  attributes (count_refresh h).2 = attributes h.
Proof. reflexivity. Qed.

Lemma timeouts_app (tr1 tr2 : list event) :
  timeouts (tr1 ++ tr2) = timeouts tr1 ++ timeouts tr2.
Proof.
  induction tr1 as [|[] tr1 IH]; simpl; rewrite ?IH; reflexivity.
Qed.

Lemma timeouts_write_events (ws : list (HTMLElement * string * string)) :
  timeouts (write_events ws) = [].
Proof. induction ws; simpl; auto. Qed.

(** ** The effect of a refresh is fixed by the metadata cache

    Each operation below ends in the host it started from with one batch of
    attribute writes added; the batch and the outcome are the same from every
    host that holds the same metadata. *)

Lemma updateFileDisplay_plan (p : ErikaPlugin) (f : TFile)
    (mc : gmap string CachedMetadata) :
  exists r ws, forall h, metadataCache h = mc ->
    updateFileDisplay p f h = (r, write_all ws h).
Proof.
  unfold updateFileDisplay.
  destruct (fileExplorer p) as [fe|]; [|exists (OK ()), []; reflexivity].
  destruct (fileItems fe) as [items|]; [|exists (Throw TypeError), []; reflexivity].
  destruct (calcDisplayText (settings p) (mc !! path f ≫= frontmatter)) as [text|e] eqn:Hc.
  - destruct (get_item (path f) items) as [item|].
    + exists (OK ()), [(selfEl item, "data-erika-value", text)]. intros h <-.
      unfold mbind, M_bind, getFileCache, lift in Hc |- *. rewrite Hc. reflexivity.
    + exists (Throw TypeError), []. intros h <-.
      destruct (object_prototype (path f)); [|reflexivity].
      unfold mbind, M_bind, getFileCache, lift in Hc |- *. rewrite Hc. reflexivity.
  - destruct (get_item (path f) items) as [item|].
    + exists (Throw e), []. intros h <-.
      unfold mbind, M_bind, getFileCache, lift in Hc |- *. rewrite Hc. reflexivity.
    + destruct (object_prototype (path f)).
      * exists (Throw e), []. intros h <-.
        unfold mbind, M_bind, getFileCache, lift in Hc |- *. rewrite Hc. reflexivity.
      * exists (Throw TypeError), []. reflexivity.
Qed.

Lemma forM__plan {A : Type} (l : list A) (body : A -> M unit)
    (mc : gmap string CachedMetadata) :
  (forall x, exists r ws, forall h, metadataCache h = mc -> body x h = (r, write_all ws h)) ->
  exists r ws, forall h, metadataCache h = mc -> forM_ l body h = (r, write_all ws h).
Proof.
  intros Hbody. induction l as [|x l (r2 & ws2 & IH)]; simpl.
  - exists (OK ()), []. reflexivity.
  - destruct (Hbody x) as (r1 & ws1 & H1).
    destruct r1 as [[]|e].
    + exists r2, (ws1 ++ ws2). intros h Hh.
      unfold mbind, M_bind. rewrite (H1 h Hh).
      rewrite write_all_app. apply IH.
      rewrite <- Hh. apply write_all_fields.
    + exists (Throw e), ws1. intros h Hh.
      unfold mbind, M_bind. rewrite (H1 h Hh). reflexivity.
Qed.

Lemma updateFileExplorer_plan (p : ErikaPlugin) (mc : gmap string CachedMetadata) :
  exists r ws, forall h, metadataCache h = mc ->
    updateFileExplorer p h = (r, write_all ws (count_refresh h).2).
Proof.
  unfold updateFileExplorer.
  destruct (fileExplorer p) as [fe|] eqn:Hfe.
  - destruct (forM__plan (map fst (default [] (fileItems fe)))
                (fun path =>
                   match get_item path (default [] (fileItems fe)) with
                   | None => throw TypeError
                   | Some item =>
                       match file item with
                       | AFile f => updateFileDisplay p f
                       | AFolder _ => mret ()
                       end
                   end) mc) as (r & ws & H).
    { intros k. destruct (get_item k _) as [item|].
      - destruct (file item) as [f|d].
        + apply updateFileDisplay_plan.
        + exists (OK ()), []. reflexivity.
      - exists (Throw TypeError), []. reflexivity. }
    exists r, ws. intros h Hh. unfold mbind at 1, M_bind at 1. simpl.
    apply H. exact Hh.
  - exists (OK ()), []. reflexivity.
Qed.

(** The outcome of a refresh is the same from every host with the same
    metadata. *)
Lemma updateFileExplorer_outcome (p : ErikaPlugin) (h1 h2 : Host) :
  metadataCache h1 = metadataCache h2 ->
  (updateFileExplorer p h1).1 = (updateFileExplorer p h2).1.
Proof.
  intros Hmc. destruct (updateFileExplorer_plan p (metadataCache h2)) as (r & ws & H).
  rewrite (H h1 Hmc), (H h2 eq_refl). reflexivity.
Qed.

(** While the clock stands still, a second [updateFileExplorer] under the
    same settings and metadata ends as the first did, writes the same labels
    again and leaves every display attribute as the first call left it. *)
Lemma updateFileExplorer_repeat (p : ErikaPlugin) (h : Host) :
  let once := updateFileExplorer p h in
  let twice := updateFileExplorer p once.2 in
  metadataCache once.2 = metadataCache h
  /\ twice.1 = once.1
  /\ attributes twice.2 = attributes once.2
  /\ exists ws, trace once.2 = trace h ++ write_events ws
                /\ trace twice.2 = trace once.2 ++ write_events ws.
Proof.
  destruct (updateFileExplorer_plan p (metadataCache h)) as (r & ws & H).
  cbv zeta. rewrite (H h eq_refl). cbn [fst snd].
  destruct (write_all_fields ws (count_refresh h).2) as (H1 & H2 & _ & H4 & _).
  assert (Hmc : metadataCache (write_all ws (count_refresh h).2) = metadataCache h)
    by exact H1.
  rewrite (H _ Hmc). cbn [fst snd].
  destruct (write_all_fields ws (count_refresh (write_all ws (count_refresh h).2)).2)
    as (_ & H2' & _ & H4' & _).
  split; [exact Hmc|]. split; [reflexivity|]. split.
  - rewrite H2', count_refresh_attributes, H2.
    apply insert_all_idem.
  - exists ws. split; [exact H4 | exact H4'].
Qed.

End SynchronizerProperties.

(** ** Refreshing again at a later time *)

Section Idempotence.
Context {Num : NumberOps}.

Lemma extract_dates_agree (M1 M2 : Moment) (fm : FrontMatterCache) (item : ListItem) :
  (type item = Date -> to_boolean (get fm (key item)) = true ->
   @moment_format Num M1 (get fm (key item)) (format item)
   = @moment_format Num M2 (get fm (key item)) (format item)) ->
  @extract Num M1 fm item = @extract Num M2 fm item.
Proof.
  intros H. unfold extract.
  destruct (String.eqb (type item) Raw); [reflexivity|].
  destruct (String.eqb (type item) Date) eqn:HD; [|reflexivity].
  apply String.eqb_eq in HD.
  destruct (to_boolean (get fm (key item))) eqn:Hb; [|reflexivity].
  rewrite (H HD eq_refl). reflexivity.
Qed.

Lemma calcDisplayText_dates_agree (M1 M2 : Moment) (s : PluginSettings)
    (frontmatter : option FrontMatterCache) :
  (forall fm, frontmatter = Some fm -> dates_agree M1 M2 s fm) ->
  @calcDisplayText Num M1 s frontmatter = @calcDisplayText Num M2 s frontmatter.
Proof.
  intros H. destruct frontmatter as [fm|]; [|reflexivity].
  specialize (H fm eq_refl). unfold calcDisplayText, dates_agree in *.
  assert (Hm : mapM (@extract Num M1 fm) (settings_list s)
               = mapM (@extract Num M2 fm) (settings_list s)).
  { induction H as [|item l Hitem _ IH]; [reflexivity|].
    simpl. rewrite (extract_dates_agree M1 M2 fm item Hitem), IH. reflexivity. }
  rewrite Hm. reflexivity.
Qed.

Lemma updateFileDisplay_dates_agree (M1 M2 : Moment) (p : ErikaPlugin) (f : TFile)
    (h : Host) :
  (forall fm, metadataCache h !! path f ≫= frontmatter = Some fm ->
              dates_agree M1 M2 (settings p) fm) ->
  @updateFileDisplay Num M1 p f h = @updateFileDisplay Num M2 p f h.
Proof.
  intros H.
  pose proof (calcDisplayText_dates_agree M1 M2 (settings p) _ H) as Hc.
  unfold updateFileDisplay.
  destruct (fileExplorer p) as [fe|]; [|reflexivity].
  destruct (fileItems fe) as [items|]; [|reflexivity].
  unfold mbind, M_bind, getFileCache, lift in Hc |- *.
  destruct (get_item (path f) items) as [item|]; [rewrite Hc; reflexivity|].
  destruct (object_prototype (path f)); [rewrite Hc; reflexivity | reflexivity].
Qed.

Lemma forM__ext {A : Type} (l : list A) (b1 b2 : A -> M unit)
    (mc : gmap string CachedMetadata) :
  (forall x h, x ∈ l -> metadataCache h = mc -> b1 x h = b2 x h) ->
  (forall x h, x ∈ l -> metadataCache h = mc -> metadataCache (b1 x h).2 = mc) ->
  forall h, metadataCache h = mc -> forM_ l b1 h = forM_ l b2 h.
Proof.
  induction l as [|x l IH]; intros Hb Hmc h Hh; [reflexivity|].
  simpl. unfold mbind, M_bind.
  assert (Hx : x ∈ x :: l) by (apply elem_of_cons; left; reflexivity).
  rewrite <- (Hb x h Hx Hh). pose proof (Hmc x h Hx Hh) as Hnext.
  destruct (b1 x h) as [[[]|e] h']; [|reflexivity].
  apply IH; [| |exact Hnext].
  - intros y h0 Hy. apply Hb. apply elem_of_cons. right. exact Hy.
  - intros y h0 Hy. apply Hmc. apply elem_of_cons. right. exact Hy.
Qed.

(** Two states of the formatter that agree on what the [Date] extractors
    read in the files visited make the same refresh. *)
Lemma updateFileExplorer_dates_agree (M1 M2 : Moment) (p : ErikaPlugin)
    (mc : gmap string CachedMetadata) :
  (forall f fm, visited p f -> mc !! path f ≫= frontmatter = Some fm ->
                dates_agree M1 M2 (settings p) fm) ->
  forall h, metadataCache h = mc ->
  @updateFileExplorer Num M1 p h = @updateFileExplorer Num M2 p h.
Proof.
  intros H h Hh. unfold updateFileExplorer.
  destruct (fileExplorer p) as [fe|] eqn:Hfe; [|reflexivity].
  unfold mbind at 1 2. unfold M_bind at 1 2. cbn [count_refresh].
  destruct (fileItems fe) as [items|] eqn:Hitems; [|reflexivity].
  change (default [] (Some items)) with items.
  apply (forM__ext _ _ _ mc); [| |exact Hh].
  - intros k h0 _ Hh0. destruct (get_item k items) as [item|] eqn:Hget; [|reflexivity].
    destruct (file item) as [f|d] eqn:Hfile; [|reflexivity].
    apply updateFileDisplay_dates_agree. rewrite Hh0. intros fm Hfm.
    apply (H f fm); [|exact Hfm]. exists fe, items, k, item. auto.
  - intros k h0 _ Hh0. destruct (get_item k items) as [item|]; [|exact Hh0].
    destruct (file item) as [f|d]; [|exact Hh0].
    destruct (@updateFileDisplay_plan Num M1 p f mc) as (r & ws & Hplan).
    rewrite (Hplan h0 Hh0). cbn [snd]. rewrite <- Hh0.
    exact (proj1 (@write_all_fields Num ws h0)).
Qed.

Context {C : Clock}.


End Idempotence.

Section SynchronizerClaims.
Context {Num : NumberOps} {Mom : Moment}.

(** ** Refreshing one file *)

(** Before the handle is acquired [updateFileDisplay] does nothing. *)
Lemma updateFileDisplay_unacquired (p : ErikaPlugin) (f : TFile) (h : Host) :
  fileExplorer p = None -> updateFileDisplay p f h = (OK (), h).
Proof. intros Hp. unfold updateFileDisplay. rewrite Hp. reflexivity. Qed.

(** On a tracked file whose label compiles, it writes that label into the
    attribute of the file's element, and nothing else. *)
Lemma updateFileDisplay_tracked (p : ErikaPlugin) (fe : FileExplorer)
    (items : FileItems) (item : FileItem) (f : TFile) (text : string) (h : Host) :
  fileExplorer p = Some fe -> fileItems fe = Some items ->
  get_item (path f) items = Some item ->
  calcDisplayText (settings p) (metadataCache h !! path f ≫= frontmatter) = OK text ->
  updateFileDisplay p f h
  = (OK (), write_all [(selfEl item, "data-erika-value", text)] h).
Proof.
  intros Hp Hfe Hitem Hc. unfold updateFileDisplay. rewrite Hp, Hfe, Hitem.
  unfold mbind, M_bind, getFileCache, lift in Hc |- *. rewrite Hc. reflexivity.
Qed.

(** C1, where the code departs from it: with the handle acquired, a file
    whose path is not among the file items makes [updateFileDisplay] throw;
    the host is left as it was. *)
Theorem updateFileDisplay_untracked_throws (p : ErikaPlugin) (fe : FileExplorer)
    (items : FileItems) (f : TFile) (h : Host) :
  fileExplorer p = Some fe -> fileItems fe = Some items ->
  get_item (path f) items = None ->
  exists e, updateFileDisplay p f h = (Throw e, h).
Proof.
  intros Hp Hfe Hitem. unfold updateFileDisplay. rewrite Hp, Hfe, Hitem.
  destruct (object_prototype (path f)); [|exists TypeError; reflexivity].
  unfold mbind, M_bind, getFileCache, lift.
  destruct (calcDisplayText _ _) as [text|e]; eexists; reflexivity.
Qed.

(** ** Saving after a settings change *)

(** C2, amended: [saveAndUpdateDisplay] refreshes first and saves afterwards.
    When the refresh completes, the effects of the handler are the label
    writes of [updateFileExplorer] followed by one save of the current
    settings, which is the last effect. *)
Theorem saveAndUpdateDisplay_refresh_then_save (p : ErikaPlugin) (h : Host) :
  (updateFileExplorer p h).1 = OK () ->
  exists ws,
    trace (updateFileExplorer p h).2 = trace h ++ write_events ws
    /\ (saveAndUpdateDisplay p h).1 = OK ()
    /\ trace (saveAndUpdateDisplay p h).2
       = trace h ++ write_events ws ++ [SaveData (settings p)]
    /\ attributes (saveAndUpdateDisplay p h).2 = attributes (updateFileExplorer p h).2
    /\ data (saveAndUpdateDisplay p h).2 = Some (settings p).
Proof.
  intros Hok. destruct (updateFileExplorer_plan p (metadataCache h)) as (r & ws & H).
  specialize (H h eq_refl).
  destruct (write_all_fields ws (count_refresh h).2) as (_ & _ & _ & H4 & _).
  exists ws. unfold saveAndUpdateDisplay, mbind, M_bind.
  rewrite H in Hok |- *. cbn [fst snd] in Hok |- *. subst r.
  cbn [saveData fst snd trace attributes data]. rewrite H4.
  cbn [count_refresh snd trace]. rewrite <- app_assoc. auto.
Qed.

(** When the refresh throws, nothing is saved. *)
Lemma saveAndUpdateDisplay_refresh_throws (p : ErikaPlugin) (h : Host) (e : exn) :
  (updateFileExplorer p h).1 = Throw e ->
  saveAndUpdateDisplay p h = (Throw e, (updateFileExplorer p h).2).
Proof.
  intros Hthrow. unfold saveAndUpdateDisplay, mbind, M_bind.
  destruct (updateFileExplorer p h) as [[[]|e'] h']; simpl in *; congruence.
Qed.

(** ** Acquiring the file explorer *)

Lemma iterateAllLeaves_found (leaves : list WorkspaceLeaf) (found leaf : WorkspaceLeaf) :
  iterateAllLeaves leaves (Some found) = Some leaf -> leaf = found.
Proof.
  induction leaves as [|l leaves IH]; simpl; [congruence | exact IH].
Qed.

(** The leaf that [getFileExplorerLeaf] resolves with has a view with file
    items. *)
Lemma getFileExplorerLeaf_view (leaves : list WorkspaceLeaf) (leaf : WorkspaceLeaf) :
  getFileExplorerLeaf leaves = OK leaf ->
  exists fe items, view leaf = Some fe /\ fileItems fe = Some items.
Proof.
  unfold getFileExplorerLeaf.
  destruct (iterateAllLeaves leaves None) as [l|] eqn:Hit; [|discriminate].
  intros [= ->]. induction leaves as [|l leaves IH]; simpl in Hit; [discriminate|].
  destruct (view l) as [fe|] eqn:Hv; [|exact (IH Hit)].
  destruct (fileItems fe) as [items|] eqn:Hi; [|exact (IH Hit)].
  apply iterateAllLeaves_found in Hit as ->. eauto.
Qed.

Lemma init_after_retries (layout : nat -> list WorkspaceLeaf) (N : nat)
    (leaf : WorkspaceLeaf) (p : ErikaPlugin) :
  let p' := {| settings := settings p; fileExplorer := view leaf |} in
  forall (a fuel : nat) (h : Host),
  (forall k, k < N -> exists e, getFileExplorerLeaf (layout (a + k)) = Throw e) ->
  getFileExplorerLeaf (layout (a + N)) = OK leaf ->
  (updateFileExplorer p' h).1 = OK () ->
  N < fuel ->
  exists h', init fuel layout a p h = (Settled, p', h')
             /\ timeouts (trace h') = timeouts (trace h) ++ replicate N 1000
             /\ refreshes h' = S (refreshes h).
Proof.
  intros p'. induction N as [|N IH]; intros a fuel h Hfail Hok Hrefresh Hfuel.
  - destruct fuel as [|fuel]; [lia|]. simpl.
    rewrite Nat.add_0_r in Hok. rewrite Hok. fold p'.
    destruct (updateFileExplorer_plan p' (metadataCache h)) as (r & ws & H).
    specialize (H h eq_refl). rewrite H in Hrefresh |- *. simpl in Hrefresh. subst r.
    eexists. split; [reflexivity|].
    destruct (write_all_fields ws (count_refresh h).2) as (_ & _ & _ & H4 & H5).
    rewrite H4, H5, timeouts_app, timeouts_write_events, !app_nil_r. auto.
  - destruct fuel as [|fuel]; [lia|]. simpl.
    destruct (Hfail 0 ltac:(lia)) as [e He]. rewrite Nat.add_0_r in He. rewrite He.
    destruct (IH (S a) fuel (emit (SetTimeout 1000) (emit (ConsoleError e) h)))
      as (h' & Hinit & Ht & Hr).
    + intros k Hk. replace (S a + k) with (a + S k) by lia. apply Hfail. lia.
    + replace (S a + N) with (a + S N) by lia. exact Hok.
    + rewrite <- Hrefresh. apply updateFileExplorer_outcome. reflexivity.
    + lia.
    + exists h'. split; [exact Hinit|]. split; [|exact Hr].
      rewrite Ht. cbn [emit trace]. rewrite !timeouts_app. simpl.
      rewrite app_nil_r, <- app_assoc. reflexivity.
Qed.

(** C7, amended: if [getFileExplorerLeaf] fails [N] times and then succeeds,
    and the refresh that follows the acquisition does not throw, [init]
    settles with [fileExplorer] set to the view of the leaf found, after [N]
    retries each scheduled 1000 ms ahead and one call of
    [updateFileExplorer]. *)
Theorem init_acquires_after_retries (layout : nat -> list WorkspaceLeaf) (N : nat)
    (leaf : WorkspaceLeaf) (p : ErikaPlugin) (h : Host) (fuel : nat) :
  (forall k, k < N -> exists e, getFileExplorerLeaf (layout k) = Throw e) ->
  getFileExplorerLeaf (layout N) = OK leaf ->
  (updateFileExplorer {| settings := settings p; fileExplorer := view leaf |} h).1 = OK () ->
  N < fuel ->
  exists h',
    init fuel layout 0 p h
    = (Settled, {| settings := settings p; fileExplorer := view leaf |}, h')
    /\ (exists fe items, view leaf = Some fe /\ fileItems fe = Some items)
    /\ timeouts (trace h') = timeouts (trace h) ++ replicate N 1000
    /\ refreshes h' = S (refreshes h).
Proof.
  intros Hfail Hok Hrefresh Hfuel.
  destruct (init_after_retries layout N leaf p 0 fuel h) as (h' & Hinit & Ht & Hr);
    try assumption.
  exists h'. split; [exact Hinit|]. split; [|auto].
  exact (getFileExplorerLeaf_view _ _ Hok).
Qed.

End SynchronizerClaims.

(** * The claims on concrete inputs *)

Section Concrete.
Import Examples.

(** ** The label compiler *)

(** The two worked examples of the specification (section 8). *)
Example calcDisplayText_order :
  @calcDisplayText int_numbers invalid_date settings_ab
    (Some [("a", VStr "X"); ("b", VStr "Y")]) = OK "X | Y".
Proof. reflexivity. Qed.

Example calcDisplayText_empty_skipped :
  @calcDisplayText int_numbers invalid_date settings_ab
    (Some [("a", VStr ""); ("b", VStr "Y")]) = OK "Y".
Proof. reflexivity. Qed.

(** C3, where the code departs from it: the number [5] under a [Raw]
    extractor.  It is truthy, but it has no [length], so the filter drops it
    and the label is empty, where the specification has its string form. *)
Theorem calcDisplayText_number_dropped :
  @calcDisplayText int_numbers invalid_date settings_a (Some [("a", num 5)]) = OK ""
  /\ @spec_compile int_numbers invalid_date settings_a (Some [("a", num 5)]) = OK "5".
Proof. split; reflexivity. Qed.

(** C4, where the code departs from it: an array that holds one [null] has
    [length] 1 and passes the filter, but its string form is empty, so the
    join leaves a separator with nothing before it. *)
Theorem calcDisplayText_dangling_separator :
  @calcDisplayText int_numbers invalid_date settings_ab
    (Some [("a", VArr [VNull]); ("b", VStr "Y")]) = OK " | Y"
  /\ @spec_compile int_numbers invalid_date settings_ab
       (Some [("a", VArr [VNull]); ("b", VStr "Y")]) = OK "Y".
Proof. split; reflexivity. Qed.

(** C5 as stated fails: an array that holds an object with an own [toString]
    property passes the filter and cannot be printed by [join]. *)
Lemma calcDisplayText_throws :
  @calcDisplayText int_numbers invalid_date settings_a (Some fm_toString)
  = Throw TypeError.
Proof. reflexivity. Qed.

(** The snapshot has an object with an own [toString] under the [Raw]
    extractor (it has no [length] and is filtered out) and another one in a
    field that nothing reads; the formatter throws on some arrays but not on
    the string that the [Date] extractor reads. *)
Lemma calcDisplayText_total_witness :
  let settings :=
    {| settings_list := [raw "a"; {| key := "d"; type := Date; format := Some "YYYY" |}];
       separator := "|" |} in
  let fm := [("a", VObj [("toString", VStr "x")]);
             ("junk", VArr [VObj [("toString", VStr "y")]]);
             ("d", VStr "2020-03-01")] in
  (forall fm', Some fm = Some fm' ->
     Forall (@item_returns int_numbers parsing_moment fm') (settings_list settings))
  /\ @moment_format int_numbers parsing_moment (VArr [VObj [("toString", VStr "y")]]) None
     = Throw TypeError
  /\ exists s, @calcDisplayText int_numbers parsing_moment settings (Some fm) = OK s.
Proof.
  assert (H : forall fm',
             Some [("a", VObj [("toString", VStr "x")]);
                   ("junk", VArr [VObj [("toString", VStr "y")]]);
                   ("d", VStr "2020-03-01")] = Some fm' ->
             Forall (@item_returns int_numbers parsing_moment fm')
               [raw "a"; {| key := "d"; type := Date; format := Some "YYYY" |}]).
  { intros fm' [= <-]. constructor; [|constructor; [|constructor]].
    - split; [reflexivity | discriminate].
    - intros _. eexists. reflexivity. }
  split; [exact H|]. split; [reflexivity|].
  exact (@calcDisplayText_total int_numbers parsing_moment
           {| settings_list := [raw "a"; {| key := "d"; type := Date; format := Some "YYYY" |}];
              separator := "|" |} _ H).
Defined.

Lemma calcDisplayText_unknown_kind_witness :
  let item := {| key := "a"; type := "color"; format := None |} in
  let fm := Some [("a", VStr "X"); ("b", VStr "Y")] in
  type item <> Raw /\ type item <> Date
  /\ @calcDisplayText int_numbers invalid_date
       {| settings_list := [raw "a"] ++ item :: [raw "b"]; separator := "|" |} fm
     = @calcDisplayText int_numbers invalid_date
         {| settings_list := [raw "a"] ++ [raw "b"]; separator := "|" |} fm.
Proof.
  assert (H1 : "color" <> Raw) by discriminate.
  assert (H2 : "color" <> Date) by discriminate.
  split; [exact H1|]. split; [exact H2|].
  apply (@calcDisplayText_unknown_kind int_numbers invalid_date
           (Some [("a", VStr "X"); ("b", VStr "Y")])
           {| key := "a"; type := "color"; format := None |}
           [raw "a"] [raw "b"] "|" H1 H2).
Defined.

(** The formatter of this instance throws whenever it is called. *)
Lemma calcDisplayText_date_falsy_witness :
  let item := {| key := "d"; type := Date; format := None |} in
  let fm := [("d", num 0); ("b", VStr "Y")] in
  type item = Date /\ get_own (key item) fm = Some (num 0)
  /\ to_boolean (num 0) = false
  /\ @extract int_numbers broken_moment fm item = OK (VStr "").
Proof.
  split; [reflexivity|]. split; [reflexivity|]. split; [reflexivity|].
  apply (@calcDisplayText_date_falsy int_numbers broken_moment
           [("d", num 0); ("b", VStr "Y")]
           {| key := "d"; type := Date; format := None |}
           (num 0) [] [raw "b"] "|" eq_refl eq_refl eq_refl).
Defined.

Lemma calcDisplayText_default_empty_witness :
  let frontmatter := Some [("title", VStr "T"); ("year", num 2020)] in
  (forall fm, frontmatter = Some fm -> get_own "" fm = None)
  /\ @calcDisplayText int_numbers invalid_date DEFAULT_SETTINGS frontmatter = OK "".
Proof.
  assert (H : forall fm : @FrontMatterCache int_numbers,
             Some [("title", VStr "T"); ("year", num 2020)] = Some fm ->
             get_own "" fm = None)
    by (intros fm [= <-]; reflexivity).
  split; [exact H|].
  apply (@calcDisplayText_default_empty int_numbers invalid_date _ H).
Defined.

(** ** The display synchronizer *)

Lemma updateFileDisplay_untracked_throws_witness :
  let h := host_a [("a", VStr "X")] in
  let f := {| path := "b.md" |} in
  fileExplorer plugin_a = Some explorer_a
  /\ fileItems explorer_a = Some [("a.md", {| file := AFile {| path := "a.md" |}; selfEl := 1 |})]
  /\ get_item (path f) [("a.md", {| file := AFile {| path := "a.md" |}; selfEl := 1 |})] = None
  /\ exists e, @updateFileDisplay int_numbers invalid_date plugin_a f h = (Throw e, h).
Proof.
  split; [reflexivity|]. split; [reflexivity|]. split; [reflexivity|].
  apply (@updateFileDisplay_untracked_throws int_numbers invalid_date
           plugin_a explorer_a _ {| path := "b.md" |} _ eq_refl eq_refl eq_refl).
Defined.

(** C2 as stated fails: the label of [a.md] is written before the settings
    are saved. *)
Lemma saveAndUpdateDisplay_writes_first :
  let h := (@saveAndUpdateDisplay int_numbers invalid_date plugin_a
              (host_a [("a", VStr "X")])).2 in
  trace h = [SetAttribute 1 "data-erika-value" "X"; SaveData settings_a]
  /\ persist_first (trace h) = false.
Proof. split; vm_compute; reflexivity. Qed.

Lemma saveAndUpdateDisplay_refresh_then_save_witness :
  let h := host_a [("a", VStr "X")] in
  (@updateFileExplorer int_numbers invalid_date plugin_a h).1 = OK ()
  /\ exists ws,
       trace (@saveAndUpdateDisplay int_numbers invalid_date plugin_a h).2
       = trace h ++ write_events ws ++ [SaveData (settings plugin_a)].
Proof.
  assert (H : (@updateFileExplorer int_numbers invalid_date plugin_a
                 (host_a [("a", VStr "X")])).1 = OK ())
    by (vm_compute; reflexivity).
  split; [exact H|].
  destruct (@saveAndUpdateDisplay_refresh_then_save int_numbers invalid_date
              plugin_a (host_a [("a", VStr "X")]) H) as (ws & _ & _ & Ht & _).
  exists ws. exact Ht.
Defined.

(** C7 as stated fails: the file explorer is there at the first attempt, so
    no acquisition fails, but the refresh throws on the front matter of
    [a.md]; the [catch] schedules a retry, and after two runs of the callback
    [updateFileExplorer] has been called twice and a third run is pending. *)
Lemma init_refreshes_again :
  let r := @init int_numbers invalid_date 2 layout_ready 0 plugin_unacquired
             (host_a fm_toString) in
  getFileExplorerLeaf (layout_ready 0) = OK {| view := Some explorer_a |}
  /\ r.1.1 = Retrying
  /\ refreshes r.2 = 2
  /\ timeouts (trace r.2) = [1000; 1000].
Proof. repeat split; vm_compute; reflexivity. Qed.

(** In that workspace [init] never settles, however many times the callback
    runs. *)
Lemma init_never_settles (fuel attempt : nat) (p : ErikaPlugin) (h : Host) :
  settings p = settings_a ->
  metadataCache h = metadataCache (host_a fm_toString) ->
  (@init int_numbers invalid_date fuel layout_ready attempt p h).1.1 = Retrying.
Proof.
  revert attempt p h. induction fuel as [|fuel IH]; intros attempt p h Hs Hmc; [reflexivity|].
  simpl. rewrite Hs.
  assert (Hthrow : (@updateFileExplorer int_numbers invalid_date
                      {| settings := settings_a; fileExplorer := Some explorer_a |} h).1
                   = Throw TypeError).
  { rewrite (@updateFileExplorer_outcome int_numbers invalid_date _ h
               (host_a fm_toString) Hmc).
    vm_compute. reflexivity. }
  pose proof (@updateFileExplorer_plan int_numbers invalid_date
                {| settings := settings_a; fileExplorer := Some explorer_a |}
                (metadataCache h)) as (r & ws & H).
  specialize (H h eq_refl). rewrite H in Hthrow |- *. simpl in Hthrow. subst r.
  apply IH; [reflexivity|].
  cbn [emit metadataCache]. rewrite <- Hmc.
  exact (proj1 (write_all_fields ws (count_refresh h).2)).
Qed.

Lemma init_acquires_after_retries_witness :
  let h := host_a [("a", VStr "X")] in
  let leaf := {| view := Some explorer_a |} in
  (forall k, k < 2 -> exists e, getFileExplorerLeaf (layout_late k) = Throw e)
  /\ getFileExplorerLeaf (layout_late 2) = OK leaf
  /\ (@updateFileExplorer int_numbers invalid_date
        {| settings := settings plugin_unacquired; fileExplorer := view leaf |} h).1 = OK ()
  /\ 2 < 3
  /\ exists h',
       @init int_numbers invalid_date 3 layout_late 0 plugin_unacquired h
       = (Settled, {| settings := settings plugin_unacquired; fileExplorer := view leaf |}, h')
       /\ timeouts (trace h') = [1000; 1000]
       /\ refreshes h' = 1.
Proof.
  assert (H1 : forall k, k < 2 -> exists e, getFileExplorerLeaf (layout_late k) = Throw e).
  { intros [|[|k]] Hk; [eexists; reflexivity | eexists; reflexivity | lia]. }
  assert (H3 : (@updateFileExplorer int_numbers invalid_date
                  {| settings := settings plugin_unacquired;
                     fileExplorer := view {| view := Some explorer_a |} |}
                  (host_a [("a", VStr "X")])).1 = OK ())
    by (vm_compute; reflexivity).
  assert (H4 : 2 < 3) by lia.
  split; [exact H1|]. split; [reflexivity|]. split; [exact H3|]. split; [exact H4|].
  destruct (@init_acquires_after_retries int_numbers invalid_date layout_late 2
              {| view := Some explorer_a |} plugin_unacquired
              (host_a [("a", VStr "X")]) 3 H1 eq_refl H3 H4)
    as (h' & Hinit & _ & Ht & Hr).
  exists h'. split; [exact Hinit|]. split; [exact Ht | exact Hr].
Defined.



End Concrete.

(** * Further properties of the label compiler *)

Section CompilerMore.
Context {Num : NumberOps} {Mom : Moment}.

Lemma extract_dropped_skipped (fm : FrontMatterCache) (item : ListItem) (v : value)
    (l1 l2 : list ListItem) :
  extract fm item = OK v -> length_gt0 v = OK false ->
  (outs ← mapM (extract fm) (l1 ++ item :: l2); filterM length_gt0 outs)
  = (outs ← mapM (extract fm) (l1 ++ l2); filterM length_gt0 outs).
Proof.
  intros He Hl. rewrite !mapM_result_app. simpl. rewrite He. simpl.
  destruct (mapM (extract fm) l1) as [a|e]; simpl; [|reflexivity].
  destruct (mapM (extract fm) l2) as [b|e]; simpl; [|reflexivity].
  rewrite !filterM_app. simpl. rewrite Hl. simpl.
  destruct (filterM length_gt0 a) as [a'|e]; simpl; [|reflexivity].
  destruct (filterM length_gt0 b) as [b'|e]; reflexivity.
Qed.

(** A [Raw] extractor whose key holds a number or a boolean adds nothing to
    the label, wherever it stands in the list: a falsy one becomes the empty
    string, a truthy one has no [length] and does not pass the filter. *)
Theorem calcDisplayText_no_length_dropped (fm : FrontMatterCache) (item : ListItem)
    (v : value) (l1 l2 : list ListItem) (sep : string) :
  type item = Raw -> get_own (key item) fm = Some v ->
  (exists n, v = VNum n) \/ (exists b, v = VBool b) ->
  calcDisplayText {| settings_list := l1 ++ item :: l2; separator := sep |} (Some fm)
  = calcDisplayText {| settings_list := l1 ++ l2; separator := sep |} (Some fm).
Proof.
  intros HR Hv Hkind. unfold calcDisplayText. cbn [settings_list separator].
  rewrite <- !result_bind_assoc.
  assert (He : exists w, extract fm item = OK w /\ length_gt0 w = OK false).
  { unfold extract, get. rewrite HR, String.eqb_refl, Hv.
    destruct Hkind as [[n ->]|[b ->]]; simpl.
    - destruct (num_to_boolean n); eauto.
    - destruct b; eauto. }
  destruct He as (w & He & Hl).
  rewrite (extract_dropped_skipped fm item w l1 l2 He Hl). reflexivity.
Qed.

Lemma mapM_element_strings (ss : list string) :
  mapM element_to_string (map VStr ss) = OK ss.
Proof.
  induction ss as [|s ss IH]; [reflexivity|]. simpl. rewrite IH. reflexivity.
Qed.

(** A single [Raw] extractor whose key holds a non-empty list of strings
    shows the strings joined by commas, without the separator. *)
Theorem calcDisplayText_raw_array (fm : FrontMatterCache) (item : ListItem)
    (ss : list string) (sep : string) :
  type item = Raw -> get_own (key item) fm = Some (VArr (map VStr ss)) -> ss <> [] ->
  calcDisplayText {| settings_list := [item]; separator := sep |} (Some fm)
  = OK (String.concat "," ss).
Proof.
  intros HR Hv Hne. unfold calcDisplayText, extract, get.
  cbn [settings_list separator mapM]. rewrite HR, String.eqb_refl, Hv.
  cbn [to_boolean mbind result_bind mret result_ret filterM length_gt0].
  rewrite length_map. destruct ss as [|s ss]; [congruence|].
  cbn [length Nat.ltb Nat.leb]. unfold Array_join.
  cbn [mapM element_to_string mbind result_bind mret result_ret].
  rewrite to_string_array, mapM_element_strings. reflexivity.
Qed.

(** A single [Date] extractor on a truthy value shows what the formatter
    makes of that value and the extractor's format. *)
Theorem calcDisplayText_date_formatted (fm : FrontMatterCache) (item : ListItem)
    (s sep : string) :
  type item = Date -> to_boolean (get fm (key item)) = true ->
  moment_format (get fm (key item)) (format item) = OK s ->
  calcDisplayText {| settings_list := [item]; separator := sep |} (Some fm) = OK s.
Proof.
  intros HD Hb Hs. unfold calcDisplayText, extract.
  cbn [settings_list separator mapM]. rewrite HD. cbn [String.eqb Ascii.eqb Bool.eqb Raw Date].
  rewrite Hb, Hs. destruct s; reflexivity.
Qed.

(** An error of the formatter aborts the whole label, whatever the
    extractors after it and whatever those before it yield. *)
Theorem calcDisplayText_formatter_throws (fm : FrontMatterCache) (item : ListItem)
    (e : exn) (l1 l2 : list ListItem) (sep : string) :
  Forall (fun it => exists v, extract fm it = OK v) l1 ->
  type item = Date -> to_boolean (get fm (key item)) = true ->
  moment_format (get fm (key item)) (format item) = Throw e ->
  calcDisplayText {| settings_list := l1 ++ item :: l2; separator := sep |} (Some fm)
  = Throw e.
Proof.
  intros Hl1 HD Hb Hs. unfold calcDisplayText. cbn [settings_list separator].
  destruct (mapM_result_total (extract fm) (fun _ => True) l1) as (a & Ha & _).
  { eapply Forall_impl; [exact Hl1|]. intros it [v Hv]. eauto. }
  rewrite mapM_result_app, Ha. simpl.
  assert (He : extract fm item = Throw e).
  { unfold extract. rewrite HD. cbn [String.eqb Ascii.eqb Bool.eqb Raw Date].
    rewrite Hb, Hs. reflexivity. }
  rewrite He. reflexivity.
Qed.

Lemma extract_fields_read (fm1 fm2 : FrontMatterCache) (item : ListItem) :
  get fm1 (key item) = get fm2 (key item) -> extract fm1 item = extract fm2 item.
Proof. intros Hg. unfold extract. rewrite Hg. reflexivity. Qed.

(** The label depends on the snapshot only through the fields that the
    extractors name: two snapshots that agree on those have the same label. *)
Theorem calcDisplayText_fields_read (settings : PluginSettings)
    (fm1 fm2 : FrontMatterCache) :
  Forall (fun item => get fm1 (key item) = get fm2 (key item)) (settings_list settings) ->
  calcDisplayText settings (Some fm1) = calcDisplayText settings (Some fm2).
Proof.
  intros Hall. unfold calcDisplayText.
  assert (Hm : mapM (extract fm1) (settings_list settings)
               = mapM (extract fm2) (settings_list settings)).
  { induction Hall as [|item l Hitem _ IH]; [reflexivity|].
    simpl. rewrite (extract_fields_read fm1 fm2 item Hitem), IH. reflexivity. }
  rewrite Hm. reflexivity.
Qed.

End CompilerMore.

(** * Further properties of the display synchronizer *)

Section SynchronizerMore.
Context {Num : NumberOps} {Mom : Moment}.

(** ** Finding the file explorer *)

Lemma iterateAllLeaves_kept (leaves : list WorkspaceLeaf) (found : WorkspaceLeaf) :
  iterateAllLeaves leaves (Some found) = Some found.
Proof. induction leaves as [|l leaves IH]; [reflexivity | exact IH]. Qed.

Lemma iterateAllLeaves_none (leaves : list WorkspaceLeaf) :
  iterateAllLeaves leaves None = None <-> Forall (fun l => shows_files l = false) leaves.
Proof.
  induction leaves as [|l leaves IH]; simpl.
  - split; [constructor | reflexivity].
  - rewrite Forall_cons. unfold shows_files at 1.
    destruct (view l) as [v|]; [destruct (fileItems v)|].
    + rewrite iterateAllLeaves_kept. split; [discriminate | intros [? _]; discriminate].
    + rewrite IH. tauto.
    + rewrite IH. tauto.
Qed.

(** [getFileExplorerLeaf] resolves with the first leaf whose view has file
    items, whatever comes after it. *)
Theorem getFileExplorerLeaf_first (l1 l2 : list WorkspaceLeaf) (leaf : WorkspaceLeaf) :
  Forall (fun l => shows_files l = false) l1 -> shows_files leaf = true ->
  getFileExplorerLeaf (l1 ++ leaf :: l2) = OK leaf.
Proof.
  intros Hl1 Hleaf. unfold getFileExplorerLeaf.
  assert (H : iterateAllLeaves (l1 ++ leaf :: l2) None = Some leaf).
  { induction Hl1 as [|l l1 Hl _ IH]; simpl.
    - unfold shows_files in Hleaf.
      destruct (view leaf) as [v|]; [|discriminate].
      destruct (fileItems v); [|discriminate]. apply iterateAllLeaves_kept.
    - unfold shows_files in Hl.
      destruct (view l) as [v|]; [destruct (fileItems v); [discriminate|]|]; exact IH. }
  rewrite H. reflexivity.
Qed.

(** It rejects, with the error "Could not find file explorer leaf", exactly
    when no leaf has a view with file items. *)
Theorem getFileExplorerLeaf_rejects (leaves : list WorkspaceLeaf) :
  getFileExplorerLeaf leaves = Throw (Error "Could not find file explorer leaf")
  <-> Forall (fun l => shows_files l = false) leaves.
Proof.
  rewrite <- iterateAllLeaves_none. unfold getFileExplorerLeaf.
  destruct (iterateAllLeaves leaves None); split; congruence.
Qed.

(** ** Refreshing one file *)

(** For a tracked file whose label compiles, [updateFileDisplay] sets the
    attribute [data-erika-value] of the file's element to the label, over
    whatever it held, and changes nothing else. *)
Theorem updateFileDisplay_writes_label (p : ErikaPlugin) (fe : FileExplorer)
    (items : FileItems) (item : FileItem) (f : TFile) (text : string) (h : Host) :
  fileExplorer p = Some fe -> fileItems fe = Some items ->
  get_item (path f) items = Some item ->
  label_of p (metadataCache h) f = OK text ->
  exists h', updateFileDisplay p f h = (OK (), h')
    /\ attributes h' = <[(selfEl item, "data-erika-value") := text]> (attributes h)
    /\ trace h' = trace h ++ [SetAttribute (selfEl item) "data-erika-value" text]
    /\ metadataCache h' = metadataCache h /\ data h' = data h.
Proof.
  intros Hp Hfe Hitem Hc. eexists. split.
  - apply (updateFileDisplay_tracked p fe items item f text h Hp Hfe Hitem Hc).
  - repeat split; reflexivity.
Qed.

Lemma updateFileDisplay_error (p : ErikaPlugin) (fe : FileExplorer)
    (items : FileItems) (item : FileItem) (f : TFile) (e : exn) (h : Host) :
  fileExplorer p = Some fe -> fileItems fe = Some items ->
  get_item (path f) items = Some item ->
  label_of p (metadataCache h) f = Throw e ->
  updateFileDisplay p f h = (Throw e, h).
Proof.
  intros Hp Hfe Hitem Hc. unfold updateFileDisplay. rewrite Hp, Hfe, Hitem.
  unfold label_of in Hc.
  unfold mbind, M_bind, getFileCache, lift in Hc |- *. rewrite Hc. reflexivity.
Qed.

(** When the label of a tracked file does not compile, the error comes out
    of [updateFileDisplay], and the attributes, the trace and the saved data
    are as before. *)
Theorem updateFileDisplay_label_throws (p : ErikaPlugin) (fe : FileExplorer)
    (items : FileItems) (item : FileItem) (f : TFile) (e : exn) (h : Host) :
  fileExplorer p = Some fe -> fileItems fe = Some items ->
  get_item (path f) items = Some item ->
  label_of p (metadataCache h) f = Throw e ->
  updateFileDisplay p f h = (Throw e, h).
Proof. exact (updateFileDisplay_error p fe items item f e h). Qed.

(** ** Refreshing all files *)

Lemma get_item_consistent (items : FileItems) (k : string) (item : FileItem) :
  NoDup (map fst items) -> (k, item) ∈ items -> get_item k items = Some item.
Proof.
  induction items as [|[k' item'] items IH]; simpl; intros Hnd Hin.
  - inversion Hin.
  - apply NoDup_cons in Hnd as [Hk' Hnd]. apply elem_of_cons in Hin as [[= -> ->]|Hin].
    + rewrite String.eqb_refl. reflexivity.
    + destruct (String.eqb k' k) eqn:Hkk; [|exact (IH Hnd Hin)].
      apply String.eqb_eq in Hkk as ->. exfalso. apply Hk'.
      apply list_elem_of_fmap. exists (k, item). split; [reflexivity | exact Hin].
Qed.

Lemma forM__app {A : Type} (l1 l2 : list A) (body : A -> M unit) (h : Host) :
  forM_ (l1 ++ l2) body h
  = match forM_ l1 body h with
    | (OK _, h') => forM_ l2 body h'
    | (Throw e, h') => (Throw e, h')
    end.
Proof.
  revert h. induction l1 as [|x l1 IH]; intros h; simpl; [reflexivity|].
  unfold mbind, M_bind. destruct (body x h) as [[[]|e] h']; [apply IH | reflexivity].
Qed.

Lemma file_writes_cons (p : ErikaPlugin) (mc : gmap string CachedMetadata)
    (k : string) (item : FileItem) (l : FileItems) :
  file_writes p mc ((k, item) :: l)
  = match file item with
    | AFile f =>
        match label_of p mc f with
        | OK text => [(selfEl item, "data-erika-value", text)]
        | Throw _ => []
        end
    | AFolder _ => []
    end ++ file_writes p mc l.
Proof. reflexivity. Qed.

(** The loop of [updateFileExplorer] over a part [l] of consistent file
    items whose labels all compile. *)
Lemma refresh_loop_writes (p : ErikaPlugin) (fe : FileExplorer) (items l : FileItems)
    (mc : gmap string CachedMetadata) :
  fileExplorer p = Some fe -> fileItems fe = Some items -> consistent items ->
  Forall (fun kv => kv ∈ items) l ->
  Forall (fun kv => forall f, file kv.2 = AFile f -> exists text, label_of p mc f = OK text) l ->
  forall h, metadataCache h = mc ->
  forM_ (map fst l)
    (fun path =>
       match get_item path items with
       | None => throw TypeError
       | Some item =>
           match file item with
           | AFile f => updateFileDisplay p f
           | AFolder _ => mret ()
           end
       end) h
  = (OK (), write_all (file_writes p mc l) h).
Proof.
  intros Hp Hfe [Hnd Hpaths] Hin Hlabels.
  induction l as [|[k item] l IH]; intros h Hmc; [reflexivity|].
  apply Forall_cons in Hin as [Hkin Hin]. apply Forall_cons in Hlabels as [Hlab Hlabels].
  rewrite file_writes_cons. cbn [map fst forM_]. unfold mbind at 1, M_bind at 1.
  rewrite (get_item_consistent items k item Hnd Hkin).
  rewrite Forall_forall in Hpaths. pose proof (Hpaths _ Hkin) as Hpath.
  cbn [fst snd] in Hpath, Hlab.
  destruct (file item) as [f|d] eqn:Hfile.
  - destruct (Hlab f eq_refl) as [text Htext].
    assert (Hget : get_item (path f) items = Some item)
      by (rewrite (Hpath f eq_refl); exact (get_item_consistent items k item Hnd Hkin)).
    rewrite Htext. rewrite <- Hmc in Htext.
    rewrite (updateFileDisplay_tracked p fe items item f text h Hp Hfe Hget Htext).
    rewrite write_all_app. apply (IH Hin Hlabels).
    rewrite <- Hmc. reflexivity.
  - apply (IH Hin Hlabels). exact Hmc.
Qed.

Lemma updateFileExplorer_acquired (p : ErikaPlugin) (fe : FileExplorer)
    (items : FileItems) (h : Host) :
  fileExplorer p = Some fe -> fileItems fe = Some items ->
  updateFileExplorer p h
  = forM_ (map fst items)
      (fun path =>
         match get_item path items with
         | None => throw TypeError
         | Some item =>
             match file item with
             | AFile f => updateFileDisplay p f
             | AFolder _ => mret ()
             end
         end) (count_refresh h).2.
Proof. intros Hp Hfe. unfold updateFileExplorer. rewrite Hp, Hfe. reflexivity. Qed.

Lemma Forall_elem_of_self {A : Type} (l : list A) : Forall (fun x => x ∈ l) l.
Proof. apply Forall_forall. auto. Qed.

(** With consistent file items whose labels all compile, [updateFileExplorer]
    writes one label per file, in the order of the items, and none for a
    folder. *)
Theorem updateFileExplorer_writes_every_file (p : ErikaPlugin) (fe : FileExplorer)
    (items : FileItems) (h : Host) :
  fileExplorer p = Some fe -> fileItems fe = Some items -> consistent items ->
  Forall (fun kv => forall f, file kv.2 = AFile f ->
                    exists text, label_of p (metadataCache h) f = OK text) items ->
  exists h', updateFileExplorer p h = (OK (), h')
    /\ trace h' = trace h ++ write_events (file_writes p (metadataCache h) items)
    /\ attributes h' = insert_all (file_writes p (metadataCache h) items) (attributes h).
Proof.
  intros Hp Hfe Hcons Hlabels.
  rewrite (updateFileExplorer_acquired p fe items h Hp Hfe).
  rewrite (refresh_loop_writes p fe items items (metadataCache h) Hp Hfe Hcons
             (Forall_elem_of_self items) Hlabels (count_refresh h).2 eq_refl).
  eexists. split; [reflexivity|].
  match goal with |- context [write_all ?ws ?h0] =>
    destruct (write_all_fields ws h0) as (_ & H2 & _ & H4 & _) end.
  rewrite H2, H4. split; reflexivity.
Qed.

(** The refresh stops at the first file whose label does not compile: the
    files before it have their labels written, the files after it are left
    as they were, and the error comes out. *)
Theorem updateFileExplorer_stops_at_error (p : ErikaPlugin) (fe : FileExplorer)
    (l1 l2 : FileItems) (k : string) (item : FileItem) (f : TFile) (e : exn) (h : Host) :
  fileExplorer p = Some fe -> fileItems fe = Some (l1 ++ (k, item) :: l2) ->
  consistent (l1 ++ (k, item) :: l2) ->
  Forall (fun kv => forall f, file kv.2 = AFile f ->
                    exists text, label_of p (metadataCache h) f = OK text) l1 ->
  file item = AFile f -> label_of p (metadataCache h) f = Throw e ->
  exists h', updateFileExplorer p h = (Throw e, h')
    /\ trace h' = trace h ++ write_events (file_writes p (metadataCache h) l1)
    /\ attributes h' = insert_all (file_writes p (metadataCache h) l1) (attributes h).
Proof.
  intros Hp Hfe Hcons Hlabels Hfile He.
  rewrite (updateFileExplorer_acquired p fe _ h Hp Hfe).
  rewrite map_app, forM__app.
  assert (Hin1 : Forall (fun kv => kv ∈ l1 ++ (k, item) :: l2) l1).
  { apply Forall_forall. intros kv Hkv. apply elem_of_app. left. exact Hkv. }
  rewrite (refresh_loop_writes p fe _ l1 (metadataCache h) Hp Hfe Hcons Hin1 Hlabels
             (count_refresh h).2 eq_refl).
  set (h1 := write_all _ _).
  assert (Hmc : metadataCache h1 = metadataCache h)
    by exact (proj1 (write_all_fields _ (count_refresh h).2)).
  assert (Hkin : (k, item) ∈ l1 ++ (k, item) :: l2).
  { apply elem_of_app. right. apply elem_of_cons. left. reflexivity. }
  destruct Hcons as [Hnd Hpaths]. rewrite Forall_forall in Hpaths.
  pose proof (get_item_consistent _ k item Hnd Hkin) as Hget.
  pose proof (Hpaths _ Hkin f Hfile) as Hpath. simpl in Hpath.
  subst k. cbn [map fst forM_]. unfold mbind at 1, M_bind at 1. rewrite Hget, Hfile.
  rewrite <- Hmc in He.
  rewrite (updateFileDisplay_error p fe _ item f e h1 Hp Hfe Hget He).
  eexists. split; [reflexivity|]. subst h1.
  match goal with |- context [write_all ?ws ?h0] =>
    destruct (write_all_fields ws h0) as (_ & H2 & _ & H4 & _) end.
  rewrite H2, H4. split; reflexivity.
Qed.

End SynchronizerMore.

Section LifecycleMore.
Context {Num : NumberOps} {Mom : Moment}.

(** ** Retrying while the file explorer is not there *)

(** As long as no leaf has a view with file items, every run of the callback
    of [init] only logs the error and schedules the next run 1000 ms ahead:
    [fileExplorer] stays as it is, nothing is refreshed, written or saved. *)
Theorem init_retries_while_absent (layout : nat -> list WorkspaceLeaf)
    (fuel attempt : nat) (p : ErikaPlugin) (h : Host) :
  (forall k, Forall (fun l => shows_files l = false) (layout k)) ->
  exists h', init fuel layout attempt p h = (Retrying, p, h')
    /\ timeouts (trace h') = timeouts (trace h) ++ replicate fuel 1000
    /\ attributes h' = attributes h /\ data h' = data h
    /\ refreshes h' = refreshes h.
Proof.
  intros Habsent. revert attempt h.
  induction fuel as [|fuel IH]; intros attempt h.
  - exists h. simpl. rewrite app_nil_r. auto.
  - simpl. unfold getFileExplorerLeaf.
    rewrite (proj2 (iterateAllLeaves_none (layout attempt)) (Habsent attempt)).
    destruct (IH (S attempt)
                (emit (SetTimeout 1000)
                   (emit (ConsoleError (Error "Could not find file explorer leaf")) h)))
      as (h' & Hinit & Ht & Ha & Hd & Hr).
    exists h'. split; [exact Hinit|]. split; [|auto].
    rewrite Ht. cbn [emit trace]. rewrite !timeouts_app. simpl.
    rewrite app_nil_r, <- app_assoc. reflexivity.
Qed.

(** ** Saving and loading the settings *)

(** Before the file explorer is acquired, [saveAndUpdateDisplay] only saves
    the settings. *)
Theorem saveAndUpdateDisplay_unacquired (p : ErikaPlugin) (h : Host) :
  fileExplorer p = None ->
  exists h', saveAndUpdateDisplay p h = (OK (), h')
    /\ trace h' = trace h ++ [SaveData (settings p)]
    /\ attributes h' = attributes h
    /\ data h' = Some (settings p).
Proof.
  intros Hp. unfold saveAndUpdateDisplay, updateFileExplorer. rewrite Hp.
  eexists. split; [reflexivity|]. auto.
Qed.

Lemma loadSettings_to_data (s : PluginSettings) : loadSettings (Some (to_data s)) = s.
Proof. destruct s; reflexivity. Qed.

(** What [saveSettings] saved is what [loadSettings] makes of the saved data
    afterwards: the defaults leave no mark on settings that were saved. *)
Theorem loadSettings_after_saveSettings (p : ErikaPlugin) (h : Host) :
  loadSettings (loadData (saveSettings p h).2) = settings p.
Proof. apply loadSettings_to_data. Qed.

Lemma saveAndUpdateDisplay_data (p : ErikaPlugin) (h : Host) :
  (updateFileExplorer p h).1 = OK () ->
  exists h', saveAndUpdateDisplay p h = (OK (), h') /\ data h' = Some (settings p).
Proof.
  intros Hok. unfold saveAndUpdateDisplay, mbind, M_bind.
  destruct (updateFileExplorer p h) as [[[]|e] h1]; [|discriminate].
  eexists. split; reflexivity.
Qed.

(** An edit in the settings tab whose refresh completes is saved: the next
    [loadSettings] gives the settings as edited. *)
Theorem handle_persists (p : ErikaPlugin) (e : ui_event) (h : Host) :
  (updateFileExplorer (handle p e).1 h).1 = OK () ->
  exists h', (handle p e).2 h = (OK (), h')
    /\ settings (handle p e).1 = mutate (settings p) e
    /\ loadSettings (loadData h') = mutate (settings p) e.
Proof.
  intros Hok. destruct (saveAndUpdateDisplay_data (handle p e).1 h Hok) as (h' & Hrun & Hd).
  exists h'. split; [exact Hrun|]. split; [reflexivity|].
  unfold loadData. rewrite Hd. apply loadSettings_to_data.
Qed.

End LifecycleMore.

(** * The settings tab *)

Section SettingsTab.

Lemma elem_of_concat {A : Type} (x : A) (ls : list (list A)) :
  x ∈ concat ls <-> exists l, l ∈ ls /\ x ∈ l.
Proof.
  rewrite list_elem_of_In, in_concat. split; intros (l & H1 & H2); exists l.
  - split; apply list_elem_of_In; assumption.
  - split; apply list_elem_of_In; assumption.
Qed.

Lemma elem_of_display (c : control) (s : PluginSettings) :
  c ∈ display s
  <-> c = SeparatorText (separator s)
      \/ (exists i item, settings_list s !! i = Some item /\ c ∈ item_controls i item)
      \/ c = AddButton.
Proof.
  unfold display. rewrite !elem_of_app, elem_of_concat, !list_elem_of_singleton.
  split.
  - intros [H|[(l & Hl & Hc)|H]]; auto.
    apply elem_of_lookup_imap in Hl as (i & item & -> & Hi). eauto 6.
  - intros [H|[(i & item & Hi & Hc)|H]]; auto.
    right. left. exists (item_controls i item). split; [|exact Hc].
    apply elem_of_lookup_imap. eauto.
Qed.

Lemma rendered_spec (s : PluginSettings) (e : ui_event) :
  rendered s e = true <-> exists c, c ∈ display s /\ raises c e = true.
Proof.
  unfold rendered. rewrite existsb_exists.
  split; intros (c & Hc & Hr); exists c; (split; [apply list_elem_of_In; exact Hc | exact Hr]).
Qed.

Lemma raises_remove (c : control) (i : nat) :
  raises c (RemoveClick i) = true <-> c = RemoveButton i.
Proof.
  destruct c; simpl; try (split; [discriminate | intros [=]]).
  rewrite Nat.eqb_eq. split; [intros ->; reflexivity | intros [= ->]; reflexivity].
Qed.

Lemma remove_button_of_item (i j : nat) (item : ListItem) :
  RemoveButton i ∈ item_controls j item <-> i = j /\ 0 < j.
Proof.
  unfold item_controls. rewrite !elem_of_app.
  destruct (Nat.ltb 0 j) eqn:Hj; [apply Nat.ltb_lt in Hj | apply Nat.ltb_ge in Hj];
    destruct (String.eqb (type item) Date);
    rewrite ?elem_of_cons, ?elem_of_nil; split; intros H.
  all: try (destruct H as [-> H]; lia).
  all: try (destruct H as [-> H]; auto).
  all: repeat (destruct H as [H|H]); try discriminate; try contradiction.
  all: injection H as ->; auto.
Qed.

Lemma rendered_remove (s : PluginSettings) (i : nat) :
  rendered s (RemoveClick i) = true <-> 0 < i < length (settings_list s).
Proof.
  rewrite rendered_spec. split.
  - intros (c & Hc & Hr). apply raises_remove in Hr as ->.
    apply elem_of_display in Hc as [Hc|[(j & item & Hj & Hc)|Hc]]; try discriminate.
    apply remove_button_of_item in Hc as [-> Hpos].
    split; [exact Hpos | eapply lookup_lt_Some; exact Hj].
  - intros [Hpos Hlt]. exists (RemoveButton i). split; [|apply raises_remove; reflexivity].
    apply lookup_lt_is_Some in Hlt as [item Hitem].
    apply elem_of_display. right. left. exists i, item. split; [exact Hitem|].
    apply remove_button_of_item. auto.
Qed.

(** The tab offers to remove the extractor at index [i] exactly when
    [0 < i < length]: the first extractor has no remove button. *)
Theorem remove_button_rendered (s : PluginSettings) (i : nat) :
  rendered s (RemoveClick i) = true <-> 0 < i < length (settings_list s).
Proof. exact (rendered_remove s i). Qed.

Lemma mutate_keeps_nonempty (s : PluginSettings) (e : ui_event) :
  rendered s e = true -> settings_list s <> [] -> settings_list (mutate s e) <> [].
Proof.
  intros Hr Hne. destruct e as [v|i|i v|i v|i v|]; cbn [mutate settings_list].
  - exact Hne.
  - apply rendered_remove in Hr as [Hpos _].
    destruct (settings_list s) as [|x l]; [congruence|].
    destruct i as [|i]; [lia | discriminate].
  - intros H. apply (f_equal length) in H. rewrite length_alter in H.
    destruct (settings_list s); [congruence | discriminate].
  - intros H. apply (f_equal length) in H. rewrite length_alter in H.
    destruct (settings_list s); [congruence | discriminate].
  - intros H. apply (f_equal length) in H. rewrite length_alter in H.
    destruct (settings_list s); [congruence | discriminate].
  - intros H. apply app_eq_nil in H as [_ H]. discriminate.
Qed.

(** Whatever the user does in the settings tab, a list of extractors that is
    not empty stays so. *)
Theorem edits_keep_nonempty (s : PluginSettings) (es : list ui_event) :
  settings_list s <> [] -> settings_list (edits s es) <> [].
Proof.
  revert s. induction es as [|e es IH]; intros s Hne; [exact Hne|].
  unfold edits. cbn [foldl]. apply IH.
  destruct (rendered s e) eqn:Hr; [apply mutate_keeps_nonempty; assumption | exact Hne].
Qed.

(** Adding an extractor and then removing the last one gives the settings
    back; the button for that is there unless the list was empty. *)
Theorem add_then_remove (s : PluginSettings) :
  settings_list s <> [] ->
  rendered (mutate s AddClick) (RemoveClick (length (settings_list s))) = true
  /\ mutate (mutate s AddClick) (RemoveClick (length (settings_list s))) = s.
Proof.
  intros Hne. split.
  - apply rendered_remove. cbn [mutate settings_list]. rewrite length_app. simpl.
    destruct (settings_list s); [congruence | simpl; lia].
  - destruct s as [l sep]. cbn [mutate settings_list separator].
    rewrite delete_middle, app_nil_r. reflexivity.
Qed.

Lemma raises_format (c : control) (i : nat) (v : string) :
  raises c (FormatChange i v) = true <-> exists ph w, c = FormatText i ph w.
Proof.
  destruct c; simpl; try (split; [discriminate | intros (? & ? & [=])]).
  rewrite Nat.eqb_eq. split; [intros ->; eauto | intros (? & ? & [= -> _ _]); reflexivity].
Qed.

Lemma format_text_of_item (i j : nat) (ph w : string) (item : ListItem) :
  FormatText i ph w ∈ item_controls j item
  <-> i = j /\ type item = Date /\ ph = "YYYY-MM-DD" /\ w = default "" (format item).
Proof.
  unfold item_controls. rewrite !elem_of_app.
  destruct (Nat.ltb 0 j);
    destruct (String.eqb (type item) Date) eqn:Ht;
    [apply String.eqb_eq in Ht | apply String.eqb_neq in Ht
    |apply String.eqb_eq in Ht | apply String.eqb_neq in Ht];
    rewrite ?elem_of_cons, ?elem_of_nil; split; intros H.
  all: try (destruct H as (-> & Ht' & -> & ->); try contradiction; auto 6).
  all: repeat (destruct H as [H|H]); try discriminate; try contradiction.
  all: injection H as -> -> ->; auto.
Qed.

(** The tab shows the format field of an extractor exactly when its type is
    [Date]; it shows what the format holds, or nothing. *)
Theorem format_field_rendered (s : PluginSettings) (i : nat) (v : string) :
  rendered s (FormatChange i v) = true
  <-> exists item, settings_list s !! i = Some item /\ type item = Date.
Proof.
  rewrite rendered_spec. split.
  - intros (c & Hc & Hr). apply raises_format in Hr as (ph & w & ->).
    apply elem_of_display in Hc as [Hc|[(j & item & Hj & Hc)|Hc]]; try discriminate.
    apply format_text_of_item in Hc as (-> & Ht & _). eauto.
  - intros (item & Hi & Ht).
    exists (FormatText i "YYYY-MM-DD" (default "" (format item))).
    split; [|apply raises_format; eauto].
    apply elem_of_display. right. left. exists i, item. split; [exact Hi|].
    apply format_text_of_item. auto.
Qed.

End SettingsTab.

(** * The language of the translations *)

(** The language is the locale of [moment] when that is [en] or [zh-cn],
    the lower-case forms of the keys of [resources], and [en] for every other
    locale; it is never the key [zh-CN] itself. *)
Theorem translationLanguage_cases (locale : string) :
  translationLanguage locale = if String.eqb locale "zh-cn" then "zh-cn" else "en".
Proof.
  unfold translationLanguage, resources_keys. cbn [find].
  change (toLocaleLowerCase "en") with "en".
  change (toLocaleLowerCase "zh-CN") with "zh-cn".
  destruct (String.eqb "en" locale) eqn:He.
  - apply String.eqb_eq in He as <-. reflexivity.
  - rewrite (String.eqb_sym "zh-cn" locale).
    destruct (String.eqb locale "zh-cn") eqn:Hz; [|reflexivity].
    apply String.eqb_eq in Hz. exact Hz.
Qed.

(** * The further properties on concrete inputs *)

Section ConcreteMore.
Import Examples.

Lemma calcDisplayText_on_strings_witness :
  let fm := [("a", VStr "X"); ("b", VStr ""); ("c", VStr "Z")] in
  let settings := {| settings_list := [raw "a"; raw "b"; raw "missing"; raw "c"];
                     separator := "|" |} in
  Forall (@reads_string int_numbers fm) (settings_list settings)
  /\ @calcDisplayText int_numbers invalid_date settings (Some fm) = OK "X | Z".
Proof.
  assert (H : Forall (@reads_string int_numbers
                        [("a", VStr "X"); ("b", VStr ""); ("c", VStr "Z")])
                [raw "a"; raw "b"; raw "missing"; raw "c"]).
  { repeat match goal with |- Forall _ _ => constructor end;
      (split; [reflexivity|]);
      first [left; eexists; reflexivity | right; split; reflexivity]. }
  split; [exact H|].
  exact (proj1 (@calcDisplayText_on_strings int_numbers invalid_date
                  {| settings_list := [raw "a"; raw "b"; raw "missing"; raw "c"];
                     separator := "|" |} _ H)).
Defined.

Lemma calcDisplayText_no_length_dropped_witness :
  let fm := [("a", num 5); ("b", VStr "Y")] in
  type (raw "a") = Raw /\ get_own (key (raw "a")) fm = Some (num 5)
  /\ ((exists n, num 5 = VNum n) \/ (exists b, num 5 = VBool b))
  /\ @calcDisplayText int_numbers invalid_date
       {| settings_list := [] ++ raw "a" :: [raw "b"]; separator := "|" |} (Some fm)
     = @calcDisplayText int_numbers invalid_date
         {| settings_list := [] ++ [raw "b"]; separator := "|" |} (Some fm).
Proof.
  assert (H : (exists n, num 5 = @VNum int_numbers n) \/ (exists b, num 5 = VBool b))
    by (left; eexists; reflexivity).
  split; [reflexivity|]. split; [reflexivity|]. split; [exact H|].
  exact (@calcDisplayText_no_length_dropped int_numbers invalid_date
           [("a", num 5); ("b", VStr "Y")] (raw "a") (num 5) [] [raw "b"] "|"
           eq_refl eq_refl H).
Defined.

Lemma calcDisplayText_raw_array_witness :
  let fm := [("tags", @VArr int_numbers (map VStr ["x"; "y"]))] in
  type (raw "tags") = Raw
  /\ get_own (key (raw "tags")) fm = Some (VArr (map VStr ["x"; "y"]))
  /\ ["x"; "y"] <> []
  /\ @calcDisplayText int_numbers invalid_date
       {| settings_list := [raw "tags"]; separator := "|" |} (Some fm) = OK "x,y".
Proof.
  assert (H : ["x"; "y"] <> @nil string) by discriminate.
  split; [reflexivity|]. split; [reflexivity|]. split; [exact H|].
  exact (@calcDisplayText_raw_array int_numbers invalid_date
           [("tags", VArr (map VStr ["x"; "y"]))] (raw "tags") ["x"; "y"] "|"
           eq_refl eq_refl H).
Defined.

Lemma calcDisplayText_date_formatted_witness :
  let item := {| key := "d"; type := Date; format := Some "YYYY" |} in
  let fm := [("d", @VStr int_numbers "2020-03-01")] in
  type item = Date /\ to_boolean (get fm (key item)) = true
  /\ @moment_format int_numbers year_moment (get fm (key item)) (format item) = OK "2020"
  /\ @calcDisplayText int_numbers year_moment
       {| settings_list := [item]; separator := "|" |} (Some fm) = OK "2020".
Proof.
  split; [reflexivity|]. split; [reflexivity|]. split; [reflexivity|].
  exact (@calcDisplayText_date_formatted int_numbers year_moment
           [("d", VStr "2020-03-01")] {| key := "d"; type := Date; format := Some "YYYY" |}
           "2020" "|" eq_refl eq_refl eq_refl).
Defined.

Lemma calcDisplayText_formatter_throws_witness :
  let item := {| key := "d"; type := Date; format := None |} in
  let fm := [("a", @VStr int_numbers "X"); ("d", VStr "2020-03-01")] in
  Forall (fun it => exists v, @extract int_numbers broken_moment fm it = OK v) [raw "a"]
  /\ type item = Date /\ to_boolean (get fm (key item)) = true
  /\ @moment_format int_numbers broken_moment (get fm (key item)) (format item)
     = Throw (Error "moment")
  /\ @calcDisplayText int_numbers broken_moment
       {| settings_list := [raw "a"] ++ item :: [raw "a"]; separator := "|" |} (Some fm)
     = Throw (Error "moment").
Proof.
  assert (H : Forall (fun it => exists v,
                        @extract int_numbers broken_moment
                          [("a", VStr "X"); ("d", VStr "2020-03-01")] it = OK v) [raw "a"])
    by (repeat constructor; eexists; reflexivity).
  split; [exact H|]. split; [reflexivity|]. split; [reflexivity|]. split; [reflexivity|].
  exact (@calcDisplayText_formatter_throws int_numbers broken_moment
           [("a", VStr "X"); ("d", VStr "2020-03-01")]
           {| key := "d"; type := Date; format := None |} (Error "moment")
           [raw "a"] [raw "a"] "|" H eq_refl eq_refl eq_refl).
Defined.

Lemma calcDisplayText_fields_read_witness :
  let fm1 := [("a", @VStr int_numbers "X"); ("z", VStr "1")] in
  let fm2 := [("z", num 2); ("a", VStr "X")] in
  Forall (fun item => get fm1 (key item) = get fm2 (key item)) (settings_list settings_a)
  /\ @calcDisplayText int_numbers invalid_date settings_a (Some fm1)
     = @calcDisplayText int_numbers invalid_date settings_a (Some fm2).
Proof.
  assert (H : Forall (fun item =>
                        get [("a", @VStr int_numbers "X"); ("z", VStr "1")] (key item)
                        = get [("z", num 2); ("a", VStr "X")] (key item))
                (settings_list settings_a))
    by (repeat constructor).
  split; [exact H|].
  exact (@calcDisplayText_fields_read int_numbers invalid_date settings_a _ _ H).
Defined.

Lemma getFileExplorerLeaf_first_witness :
  let leaf := {| view := Some explorer_a |} in
  Forall (fun l => shows_files l = false)
    [ {| view := None |}; {| view := Some {| fileItems := None |} |} ]
  /\ shows_files leaf = true
  /\ getFileExplorerLeaf
       ([ {| view := None |}; {| view := Some {| fileItems := None |} |} ]
        ++ leaf :: [ {| view := Some explorer_ab |} ]) = OK leaf.
Proof.
  assert (H : Forall (fun l => shows_files l = false)
                [ {| view := None |}; {| view := Some {| fileItems := None |} |} ])
    by (repeat constructor).
  split; [exact H|]. split; [reflexivity|].
  exact (getFileExplorerLeaf_first _ [ {| view := Some explorer_ab |} ]
           {| view := Some explorer_a |} H eq_refl).
Defined.

Lemma updateFileDisplay_writes_label_witness :
  let h := host_a [("a", VStr "X")] in
  let f := {| path := "a.md" |} in
  let item := {| file := AFile f; selfEl := 1 |} in
  fileExplorer plugin_a = Some explorer_a
  /\ fileItems explorer_a = Some [("a.md", item)]
  /\ get_item (path f) [("a.md", item)] = Some item
  /\ @label_of int_numbers invalid_date plugin_a (metadataCache h) f = OK "X"
  /\ exists h', @updateFileDisplay int_numbers invalid_date plugin_a f h = (OK (), h')
       /\ attributes h' = <[(1, "data-erika-value") := "X"]> (attributes h).
Proof.
  assert (H : @label_of int_numbers invalid_date plugin_a
                (metadataCache (host_a [("a", VStr "X")])) {| path := "a.md" |} = OK "X")
    by (vm_compute; reflexivity).
  split; [reflexivity|]. split; [reflexivity|]. split; [reflexivity|]. split; [exact H|].
  destruct (@updateFileDisplay_writes_label int_numbers invalid_date plugin_a explorer_a
              _ {| file := AFile {| path := "a.md" |}; selfEl := 1 |} {| path := "a.md" |}
              "X" (host_a [("a", VStr "X")]) eq_refl eq_refl eq_refl H)
    as (h' & Hrun & Ha & _).
  exists h'. split; [exact Hrun | exact Ha].
Defined.

Lemma updateFileDisplay_label_throws_witness :
  let h := host_a fm_toString in
  let f := {| path := "a.md" |} in
  let item := {| file := AFile f; selfEl := 1 |} in
  fileExplorer plugin_a = Some explorer_a
  /\ fileItems explorer_a = Some [("a.md", item)]
  /\ get_item (path f) [("a.md", item)] = Some item
  /\ @label_of int_numbers invalid_date plugin_a (metadataCache h) f = Throw TypeError
  /\ @updateFileDisplay int_numbers invalid_date plugin_a f h = (Throw TypeError, h).
Proof.
  assert (H : @label_of int_numbers invalid_date plugin_a
                (metadataCache (host_a fm_toString)) {| path := "a.md" |} = Throw TypeError)
    by (vm_compute; reflexivity).
  split; [reflexivity|]. split; [reflexivity|]. split; [reflexivity|]. split; [exact H|].
  exact (@updateFileDisplay_label_throws int_numbers invalid_date plugin_a explorer_a
           _ {| file := AFile {| path := "a.md" |}; selfEl := 1 |} {| path := "a.md" |}
           TypeError (host_a fm_toString) eq_refl eq_refl eq_refl H).
Defined.

Lemma items_ab_consistent : consistent items_ab.
Proof.
  split.
  - apply NoDup_ListNoDup. repeat constructor; simpl; intuition discriminate.
  - repeat constructor; intros f [= <-]; reflexivity.
Qed.

Lemma updateFileExplorer_writes_every_file_witness :
  let h := host_a [("a", VStr "X")] in
  fileExplorer plugin_ab = Some explorer_ab /\ fileItems explorer_ab = Some items_ab
  /\ consistent items_ab
  /\ Forall (fun kv => forall f, file kv.2 = AFile f ->
                exists text, @label_of int_numbers invalid_date plugin_ab
                               (metadataCache h) f = OK text) items_ab
  /\ exists h', @updateFileExplorer int_numbers invalid_date plugin_ab h = (OK (), h')
       /\ trace h' = [SetAttribute 1 "data-erika-value" "X";
                      SetAttribute 2 "data-erika-value" ""].
Proof.
  assert (H : Forall (fun kv => forall f, file kv.2 = AFile f ->
                        exists text, @label_of int_numbers invalid_date plugin_ab
                                       (metadataCache (host_a [("a", VStr "X")])) f
                                     = OK text) items_ab).
  { repeat match goal with |- Forall _ _ => constructor end;
      intros f Hf; try discriminate; injection Hf as <-;
      eexists; vm_compute; reflexivity. }
  split; [reflexivity|]. split; [reflexivity|]. split; [exact items_ab_consistent|].
  split; [exact H|].
  destruct (@updateFileExplorer_writes_every_file int_numbers invalid_date plugin_ab
              explorer_ab items_ab (host_a [("a", VStr "X")]) eq_refl eq_refl
              items_ab_consistent H) as (h' & Hrun & Ht & _).
  exists h'. split; [exact Hrun|]. rewrite Ht. vm_compute. reflexivity.
Defined.

Lemma updateFileExplorer_stops_at_error_witness :
  let h := host_a fm_toString in
  let l1 := [("notes", {| file := AFolder "notes"; selfEl := 0 |})] in
  let item := {| file := AFile {| path := "a.md" |}; selfEl := 1 |} in
  let l2 := [("b.md", {| file := AFile {| path := "b.md" |}; selfEl := 2 |})] in
  fileExplorer plugin_ab = Some explorer_ab
  /\ fileItems explorer_ab = Some (l1 ++ ("a.md", item) :: l2)
  /\ consistent (l1 ++ ("a.md", item) :: l2)
  /\ Forall (fun kv => forall f, file kv.2 = AFile f ->
                exists text, @label_of int_numbers invalid_date plugin_ab
                               (metadataCache h) f = OK text) l1
  /\ file item = AFile {| path := "a.md" |}
  /\ @label_of int_numbers invalid_date plugin_ab (metadataCache h) {| path := "a.md" |}
     = Throw TypeError
  /\ exists h', @updateFileExplorer int_numbers invalid_date plugin_ab h = (Throw TypeError, h')
       /\ attributes h' = attributes h.
Proof.
  assert (H1 : Forall (fun kv => forall f, file kv.2 = AFile f ->
                         exists text, @label_of int_numbers invalid_date plugin_ab
                                        (metadataCache (host_a fm_toString)) f = OK text)
                 [("notes", {| file := AFolder "notes"; selfEl := 0 |})])
    by (repeat constructor; intros f Hf; discriminate).
  assert (H2 : @label_of int_numbers invalid_date plugin_ab
                 (metadataCache (host_a fm_toString)) {| path := "a.md" |} = Throw TypeError)
    by (vm_compute; reflexivity).
  split; [reflexivity|]. split; [reflexivity|]. split; [exact items_ab_consistent|].
  split; [exact H1|]. split; [reflexivity|]. split; [exact H2|].
  destruct (@updateFileExplorer_stops_at_error int_numbers invalid_date plugin_ab
              explorer_ab [("notes", {| file := AFolder "notes"; selfEl := 0 |})]
              [("b.md", {| file := AFile {| path := "b.md" |}; selfEl := 2 |})]
              "a.md" {| file := AFile {| path := "a.md" |}; selfEl := 1 |}
              {| path := "a.md" |} TypeError (host_a fm_toString)
              eq_refl eq_refl items_ab_consistent H1 eq_refl H2)
    as (h' & Hrun & _ & Ha).
  exists h'. split; [exact Hrun | exact Ha].
Defined.

Lemma init_retries_while_absent_witness :
  let h := host_a [("a", VStr "X")] in
  (forall k, Forall (fun l => shows_files l = false) (layout_never k))
  /\ exists h', @init int_numbers invalid_date 3 layout_never 0 plugin_unacquired h
               = (Retrying, plugin_unacquired, h')
       /\ timeouts (trace h') = [1000; 1000; 1000].
Proof.
  assert (H : forall k, Forall (fun l => shows_files l = false) (layout_never k))
    by (intros k; repeat constructor).
  split; [exact H|].
  destruct (@init_retries_while_absent int_numbers invalid_date layout_never 3 0
              plugin_unacquired (host_a [("a", VStr "X")]) H) as (h' & Hrun & Ht & _).
  exists h'. split; [exact Hrun | exact Ht].
Defined.

Lemma saveAndUpdateDisplay_unacquired_witness :
  let h := host_a [("a", VStr "X")] in
  fileExplorer plugin_unacquired = None
  /\ exists h', @saveAndUpdateDisplay int_numbers invalid_date plugin_unacquired h = (OK (), h')
       /\ trace h' = [SaveData settings_a].
Proof.
  split; [reflexivity|].
  destruct (@saveAndUpdateDisplay_unacquired int_numbers invalid_date plugin_unacquired
              (host_a [("a", VStr "X")]) eq_refl) as (h' & Hrun & Ht & _).
  exists h'. split; [exact Hrun | exact Ht].
Defined.

Lemma handle_persists_witness :
  let h := host_a [("a", VStr "X"); ("b", VStr "Y")] in
  let e := KeyChange 0 "b" in
  (@updateFileExplorer int_numbers invalid_date (@handle int_numbers invalid_date plugin_a e).1 h).1
  = OK ()
  /\ exists h', (@handle int_numbers invalid_date plugin_a e).2 h = (OK (), h')
       /\ loadSettings (loadData h')
          = {| settings_list := [raw "b"]; separator := "|" |}.
Proof.
  assert (H : (@updateFileExplorer int_numbers invalid_date
                 (@handle int_numbers invalid_date plugin_a (KeyChange 0 "b")).1
                 (host_a [("a", VStr "X"); ("b", VStr "Y")])).1 = OK ())
    by (vm_compute; reflexivity).
  split; [exact H|].
  destruct (@handle_persists int_numbers invalid_date plugin_a (KeyChange 0 "b")
              (host_a [("a", VStr "X"); ("b", VStr "Y")]) H) as (h' & Hrun & _ & Hl).
  exists h'. split; [exact Hrun | exact Hl].
Defined.

Lemma edits_keep_nonempty_witness :
  let es := [RemoveClick 0; AddClick; TypeChange 1 Date; FormatChange 1 "YYYY";
             RemoveClick 1; RemoveClick 0] in
  settings_list DEFAULT_SETTINGS <> []
  /\ settings_list (edits DEFAULT_SETTINGS es) <> [].
Proof.
  assert (H : settings_list DEFAULT_SETTINGS <> []) by discriminate.
  split; [exact H|].
  exact (edits_keep_nonempty DEFAULT_SETTINGS _ H).
Defined.

Lemma add_then_remove_witness :
  settings_list settings_ab <> []
  /\ rendered (mutate settings_ab AddClick) (RemoveClick 2) = true
  /\ mutate (mutate settings_ab AddClick) (RemoveClick 2) = settings_ab.
Proof.
  assert (H : settings_list settings_ab <> []) by discriminate.
  split; [exact H|].
  exact (add_then_remove settings_ab H).
Defined.

End ConcreteMore.
